(** * The Vectara vector-store adapter of langchain, as used by comAI

    A shallow embedding of
    [langchain/vectorstores/vectara.py] (class [Vectara]) and the properties
    of its upsert / retry and similarity-search contract.

    Conventions of the embedding.
    - A Python [str] is a Rocq [string] holding its UTF-8 code units, so
      [text.encode("utf-8")] is the list of its bytes.
    - A Python [int] is a [Z]; a Python [float] is an IEEE [spec_float].
    - Values that come out of [response.json()] are [json] trees; a Python
      [dict] is the list of its items in insertion order.
    - The remote service is an oracle [post] over an abstract world; a call
      either is answered by a [response] or is aborted inside [requests]
      (connection failure, timeout expiry), which raises.
    - Every operation of the adapter is a computation [M A] that threads the
      world, may raise, and emits the requests it posts and the records it
      logs. *)

From Stdlib Require Import ZArith List Bool Lia.
From Stdlib.Strings Require Import String Ascii Byte.
From Stdlib Require Import DecimalString SpecFloat.
Import ListNotations.

Local Open Scope string_scope.
Local Open Scope Z_scope.
Local Open Scope list_scope.

(* ================================================================== *)
(** ** [hashlib.md5]: the MD5 digest of RFC 1321 *)
(* ================================================================== *)

Module MD5.

Definition wrap32 (x : Z) : Z := x mod 2 ^ 32.

Definition rotl32 (x c : Z) : Z :=
  wrap32 (Z.lor (Z.shiftl x c) (Z.shiftr x (32 - c))).

Definition not32 (x : Z) : Z := Z.lxor x 0xffffffff.

(** Per-round shift amounts. *)
Definition S : list Z :=
  [ 7; 12; 17; 22;  7; 12; 17; 22;  7; 12; 17; 22;  7; 12; 17; 22;
    5;  9; 14; 20;  5;  9; 14; 20;  5;  9; 14; 20;  5;  9; 14; 20;
    4; 11; 16; 23;  4; 11; 16; 23;  4; 11; 16; 23;  4; 11; 16; 23;
    6; 10; 15; 21;  6; 10; 15; 21;  6; 10; 15; 21;  6; 10; 15; 21 ].

(** [K[i] = floor (2^32 * |sin (i + 1)|)]. *)
Definition K : list Z :=
  [ 0xd76aa478; 0xe8c7b756; 0x242070db; 0xc1bdceee;
    0xf57c0faf; 0x4787c62a; 0xa8304613; 0xfd469501;
    0x698098d8; 0x8b44f7af; 0xffff5bb1; 0x895cd7be;
    0x6b901122; 0xfd987193; 0xa679438e; 0x49b40821;
    0xf61e2562; 0xc040b340; 0x265e5a51; 0xe9b6c7aa;
    0xd62f105d; 0x02441453; 0xd8a1e681; 0xe7d3fbc8;
    0x21e1cde6; 0xc33707d6; 0xf4d50d87; 0x455a14ed;
    0xa9e3e905; 0xfcefa3f8; 0x676f02d9; 0x8d2a4c8a;
    0xfffa3942; 0x8771f681; 0x6d9d6122; 0xfde5380c;
    0xa4beea44; 0x4bdecfa9; 0xf6bb4b60; 0xbebfbc70;
    0x289b7ec6; 0xeaa127fa; 0xd4ef3085; 0x04881d05;
    0xd9d4d039; 0xe6db99e5; 0x1fa27cf8; 0xc4ac5665;
    0xf4292244; 0x432aff97; 0xab9423a7; 0xfc93a039;
    0x655b59c3; 0x8f0ccc92; 0xffeff47d; 0x85845dd1;
    0x6fa87e4f; 0xfe2ce6e0; 0xa3014314; 0x4e0811a1;
    0xf7537e82; 0xbd3af235; 0x2ad7d2bb; 0xeb86d391 ].

Definition nthZ (l : list Z) (i : Z) : Z := nth (Z.to_nat i) l 0.

(** The four 32-bit chaining variables A, B, C, D. *)
Record regs := Regs { rA : Z; rB : Z; rC : Z; rD : Z }.

Definition init : regs :=
  Regs 0x67452301 0xefcdab89 0x98badcfe 0x10325476.

(** Little-endian conversions. *)
Definition word_of_bytes (b0 b1 b2 b3 : Z) : Z :=
  b0 + 256 * b1 + 65536 * b2 + 16777216 * b3.

Definition bytes_of_word (w : Z) : list Z :=
  [ w mod 256; (w / 256) mod 256; (w / 65536) mod 256;
    (w / 16777216) mod 256 ].

Fixpoint words_of_bytes (fuel : nat) (bs : list Z) : list Z :=
  match fuel, bs with
  | Datatypes.S fuel', b0 :: b1 :: b2 :: b3 :: rest =>
      word_of_bytes b0 b1 b2 b3 :: words_of_bytes fuel' rest
  | _, _ => []
  end.

(** Padding: one 0x80 byte, zeros up to 56 modulo 64, then the bit
    length as a 64-bit little-endian integer. *)
Definition pad (msg : list Z) : list Z :=
  let len := Z.of_nat (List.length msg) in
  let bits := (8 * len) mod 2 ^ 64 in
  msg ++ [0x80] ++ repeat 0 (Z.to_nat ((55 - len) mod 64))
      ++ bytes_of_word (bits mod 2 ^ 32)
      ++ bytes_of_word (bits / 2 ^ 32).

(** One of the 64 operations of a block. *)
Definition step (M : list Z) (r : regs) (i : Z) : regs :=
  let '(Regs a b c d) := r in
  let '(f, g) :=
    if i <? 16 then
      (Z.lor (Z.land b c) (Z.land (not32 b) d), i)
    else if i <? 32 then
      (Z.lor (Z.land d b) (Z.land (not32 d) c), (5 * i + 1) mod 16)
    else if i <? 48 then
      (Z.lxor (Z.lxor b c) d, (3 * i + 5) mod 16)
    else
      (Z.lxor c (Z.lor b (not32 d)), (7 * i) mod 16) in
  let f' := wrap32 (f + a + nthZ K i + nthZ M g) in
  Regs d (wrap32 (b + rotl32 f' (nthZ S i))) b c.

Definition rounds : list Z := map Z.of_nat (seq 0 64).

Definition process_block (r : regs) (block : list Z) : regs :=
  let M := words_of_bytes 16 block in
  let r' := fold_left (step M) rounds r in
  Regs (wrap32 (rA r + rA r')) (wrap32 (rB r + rB r'))
       (wrap32 (rC r + rC r')) (wrap32 (rD r + rD r')).

Fixpoint process (fuel : nat) (r : regs) (bs : list Z) : regs :=
  match fuel, bs with
  | Datatypes.S fuel', _ :: _ =>
      process fuel' (process_block r (firstn 64 bs)) (skipn 64 bs)
  | _, _ => r
  end.

(** [md5(data).digest()]: 16 bytes. *)
Definition digest (data : list byte) : list Z :=
  let bs := pad (map (fun b => Z.of_N (Byte.to_N b)) data) in
  let r := process (List.length bs) init bs in
  bytes_of_word (rA r) ++ bytes_of_word (rB r)
    ++ bytes_of_word (rC r) ++ bytes_of_word (rD r).

Definition hex_digit (n : Z) : ascii :=
  nth (Z.to_nat n)
      (list_ascii_of_string "0123456789abcdef") "0"%char.

Fixpoint hex_of_bytes (bs : list Z) : string :=
  match bs with
  | [] => EmptyString
  | b :: rest =>
      String (hex_digit (b / 16))
             (String (hex_digit (b mod 16)) (hex_of_bytes rest))
  end.

(** [md5(data).hexdigest()]: 32 lowercase hexadecimal digits. *)
Definition hexdigest (data : list byte) : string :=
  hex_of_bytes (digest data).

End MD5.

(** [text.encode("utf-8")]. *)
Definition encode_utf8 (text : string) : list byte :=
  list_byte_of_string text.

(** The document id of a text: [md5(text.encode("utf-8")).hexdigest()]. *)
Definition doc_id_of (text : string) : string :=
  MD5.hexdigest (encode_utf8 text).

(* ================================================================== *)
(** ** Python values *)
(* ================================================================== *)

#[local] Set Warnings "-register-all".

(** What [response.json()] can return, and what [json.dumps] is given. *)
Inductive json : Type :=
| JNull
| JBool (b : bool)
| JInt (z : Z)
| JFloat (f : spec_float)
| JStr (s : string)
| JArr (l : list json)
| JObj (o : list (string * json)).

(** A [dict] with [str] keys, as the items in insertion order. *)
Definition strdict := list (string * json).

Inductive transport_failure := ConnectionError | Timeout.

(** The exceptions that can leave the adapter. None is caught anywhere in
    the class. *)
Inductive exn :=
| RequestException (why : transport_failure)
| JSONDecodeError
| KeyError (key : json)
| TypeError
| IndexError
| ValidationError.

Inductive pyresult (A : Type) :=
| Returns (a : A)
| Raises (e : exn).
Arguments Returns {A} a.
Arguments Raises {A} e.

Module Py.

Definition opt_str (o : option string) : json :=
  match o with Some s => JStr s | None => JNull end.

(** [str(n)] for an [int]. *)
Definition str_of_int (n : Z) : string :=
  NilZero.string_of_int (Z.to_int n).

Fixpoint lookup (k : string) (d : strdict) : option json :=
  match d with
  | [] => None
  | (k', v) :: rest => if String.eqb k' k then Some v else lookup k rest
  end.

(** [bool(v)]. *)
Definition truthy (v : json) : bool :=
  match v with
  | JNull => false
  | JBool b => b
  | JInt z => negb (z =? 0)
  | JFloat (S754_zero _) => false
  | JFloat _ => true
  | JStr s => negb (String.eqb s "")
  | JArr l => match l with [] => false | _ => true end
  | JObj o => match o with [] => false | _ => true end
  end.

(** [v == s] for a [str] literal [s]: only a [str] equals a [str]. *)
Definition eq_str (v : json) (s : string) : bool :=
  match v with JStr t => String.eqb t s | _ => false end.

(** [needle in hay] on strings: substring test. *)
Fixpoint is_prefix (p s : string) : bool :=
  match p, s with
  | EmptyString, _ => true
  | String a p', String b s' => Ascii.eqb a b && is_prefix p' s'
  | String _ _, EmptyString => false
  end.

Fixpoint is_substring (needle hay : string) : bool :=
  is_prefix needle hay
  || match hay with
     | EmptyString => false
     | String _ hay' => is_substring needle hay'
     end.

(** The characters of a [str]: a lead code unit with the continuation
    units (10xxxxxx) that follow it. *)
Definition is_continuation (c : ascii) : bool :=
  let n := N_of_ascii c in (128 <=? n)%N && (n <? 192)%N.

Fixpoint split_chars (s : string) : string * list string :=
  match s with
  | EmptyString => (EmptyString, [])
  | String c rest =>
      let '(pending, cs) := split_chars rest in
      if is_continuation c then (String c pending, cs)
      else (EmptyString, String c pending :: cs)
  end.

Definition chars (s : string) : list string :=
  let '(pending, cs) := split_chars s in
  match pending with EmptyString => cs | _ => pending :: cs end.

(** [k in v] for a [str] literal [k]. *)
Definition contains_str (k : string) (v : json) : pyresult bool :=
  match v with
  | JObj o => Returns (match lookup k o with Some _ => true | None => false end)
  | JArr l => Returns (existsb (fun x => eq_str x k) l)
  | JStr s => Returns (is_substring k s)
  | _ => Raises TypeError
  end.

(** [v[k]] for a [str] literal [k]. *)
Definition getitem (v : json) (k : string) : pyresult json :=
  match v with
  | JObj o =>
      match lookup k o with
      | Some x => Returns x
      | None => Raises (KeyError (JStr k))
      end
  | _ => Raises TypeError
  end.

(** [v[i]] for a non-negative [int] literal [i]. *)
Definition getitem_int (v : json) (i : nat) : pyresult json :=
  match v with
  | JArr l =>
      match nth_error l i with
      | Some x => Returns x
      | None => Raises IndexError
      end
  | JStr s =>
      match nth_error (chars s) i with
      | Some c => Returns (JStr c)
      | None => Raises IndexError
      end
  | JObj _ => Raises (KeyError (JInt (Z.of_nat i)))
  | _ => Raises TypeError
  end.

(** [iter(v)], run to exhaustion. *)
Definition iter (v : json) : pyresult (list json) :=
  match v with
  | JArr l => Returns l
  | JObj o => Returns (map (fun kv => JStr (fst kv)) o)
  | JStr s => Returns (map JStr (chars s))
  | _ => Raises TypeError
  end.

(** [l[i]] on a Python [list]. *)
Definition list_getitem {A} (l : list A) (i : nat) : pyresult A :=
  match nth_error l i with
  | Some x => Returns x
  | None => Raises IndexError
  end.

(** [enumerate(l)]. *)
Definition enumerate {A} (l : list A) : list (nat * A) :=
  combine (seq 0 (List.length l)) l.

(** *** Dictionaries with arbitrary hashable keys *)

Definition hashable (k : json) : bool :=
  match k with
  | JArr _ | JObj _ => false
  | _ => true
  end.

(** The integer a float is equal to, if any. *)
Definition float_int (f : spec_float) : option Z :=
  match f with
  | S754_zero _ => Some 0
  | S754_finite s m e =>
      let mag :=
        if 0 <=? e then Some (Z.pos m * 2 ^ e)
        else if (Z.pos m mod 2 ^ (- e)) =? 0
             then Some (Z.pos m / 2 ^ (- e)) else None in
      match mag with
      | Some z => Some (if s then - z else z)
      | None => None
      end
  | _ => None
  end.

Inductive number := NInt (z : Z) | NFloat (f : spec_float).

Definition as_number (k : json) : option number :=
  match k with
  | JBool b => Some (NInt (if b then 1 else 0))
  | JInt z => Some (NInt z)
  | JFloat f => Some (NFloat f)
  | _ => None
  end.

Definition number_eqb (a b : number) : bool :=
  match a, b with
  | NInt x, NInt y => x =? y
  | NFloat f, NFloat g => SFeqb f g
  | NInt x, NFloat f | NFloat f, NInt x =>
      match float_int f with Some y => x =? y | None => false end
  end.

(** [a == b] on hashable values (numbers compare by value across
    [bool], [int] and [float]). *)
Definition key_eqb (a b : json) : bool :=
  match a, b with
  | JNull, JNull => true
  | JStr s, JStr t => String.eqb s t
  | _, _ =>
      match as_number a, as_number b with
      | Some x, Some y => number_eqb x y
      | _, _ => false
      end
  end.

Definition dict := list (json * json).

(** [d[k] = v] on a dict whose keys are known to be hashable: an existing
    key keeps its place and takes the new value. *)
Fixpoint dict_set (k v : json) (d : dict) : dict :=
  match d with
  | [] => [(k, v)]
  | (k', v') :: rest =>
      if key_eqb k' k then (k', v) :: rest
      else (k', v') :: dict_set k v rest
  end.

Fixpoint dict_get (k : json) (d : dict) : option json :=
  match d with
  | [] => None
  | (k', v) :: rest => if key_eqb k' k then Some v else dict_get k rest
  end.

End Py.

(* ================================================================== *)
(** ** The HTTP session *)
(* ================================================================== *)

(** The keyword arguments of one [self._session.post(...)] call. A keyword
    that the call site leaves out is [None]. *)
Record request := Request {
  url : string;
  headers : list (string * option string);
  data : string;
  timeout : option Z;
  verify : option bool
}.

(** What the adapter reads of a [requests.Response]. [json_body] is what
    [response.json()] returns, [None] when the body is not JSON and the
    call raises. *)
Record response := Response {
  status_code : Z;
  reason : string;
  text : string;
  json_body : option json
}.

Inductive outcome :=
| Answered (r : response)
| Aborted (why : transport_failure).

(** What a run leaves behind: the calls it posted, each with what became
    of it, and the records it logged at level ERROR. *)
Inductive event :=
| Posted (r : request) (o : outcome)
| LoggedError (msg : string).

(** The requests among the events of a run. *)
Fixpoint requests_of (evs : list event) : list request :=
  match evs with
  | [] => []
  | Posted r _ :: rest => r :: requests_of rest
  | LoggedError _ :: rest => requests_of rest
  end.

Fixpoint errors_of (evs : list event) : list string :=
  match evs with
  | [] => []
  | Posted _ _ :: rest => errors_of rest
  | LoggedError m :: rest => m :: errors_of rest
  end.

(** [langchain.schema.Document]. *)
Record Document := {
  page_content : string;
  metadata : Py.dict
}.

(** The adapter object: the three credentials set by [__init__]. *)
Record Vectara := {
  _vectara_customer_id : option string;
  _vectara_corpus_id : option string;
  _vectara_api_key : option string
}.

Definition vectara_default_metadata : list string := ["lang"; "len"; "offset"].

(** [name not in vectara_default_metadata]. *)
Definition not_in_default_metadata (name : json) : bool :=
  negb (existsb (Py.eq_str name) vectara_default_metadata).

(* ================================================================== *)
(** ** Computations of the adapter *)
(* ================================================================== *)

(** The result of running a computation from some world: what it returned
    or raised, the world it left, and the events it emitted, oldest
    first. *)
#[projections(primitive)]
Record run (W A : Type) := Run {
  result_of : pyresult A;
  world_of : W;
  events_of : list event
}.
Arguments Run {W A} _ _ _.
Arguments result_of {W A} _.
Arguments world_of {W A} _.
Arguments events_of {W A} _.

Definition M (W A : Type) : Type := W -> run W A.

Definition ret {W A} (a : A) : M W A :=
  fun w => Run (Returns a) w [].

Definition raise {W A} (e : exn) : M W A :=
  fun w => Run (Raises e) w [].

(** Sequencing: an exception of the first computation ends the run. *)
Definition bind {W A B} (m : M W A) (k : A -> M W B) : M W B :=
  fun w =>
    let r := m w in
    match result_of r with
    | Returns a =>
        let r' := k a (world_of r) in
        Run (result_of r') (world_of r') (events_of r ++ events_of r')
    | Raises e => Run (Raises e) (world_of r) (events_of r)
    end.

(** An effect-free step that may raise. *)
Definition lift {W A} (r : pyresult A) : M W A :=
  match r with
  | Returns a => ret a
  | Raises e => raise e
  end.

Declare Scope py_scope.
Delimit Scope py_scope with py.
Notation "x <- m ;; k" := (bind m (fun x => k))
  (at level 100, m at next level, right associativity) : py_scope.
Notation "m ;; k" := (bind m (fun _ => k))
  (at level 100, right associativity) : py_scope.

(** A comprehension [[f(x) for x in xs]] whose body may raise. *)
Fixpoint comprehension {W A B} (f : A -> M W B) (xs : list A) : M W (list B) :=
  match xs with
  | [] => ret []
  | x :: rest =>
      (y <- f x ;;
       ys <- comprehension f rest ;;
       ret (y :: ys))%py
  end.

Section Adapter.

(** The remote service: the state it is in and how it answers a call. *)
Variable W : Type.
Variable post : request -> W -> outcome * W.

(** [json.dumps]. *)
Variable dumps : json -> string.

(** How pydantic validates the [page_content: str] field of a
    [Document]: [None] when it rejects the value. *)
Variable str_validator : json -> option string.

Local Open Scope py_scope.

(** [self._session.post(...)] with the keyword arguments [r]. *)
Definition session_post (r : request) : M W response :=
  fun w =>
    match post r w with
    | (Answered resp, w') =>
        Run (Returns resp) w' [Posted r (Answered resp)]
    | (Aborted why, w') =>
        Run (Raises (RequestException why)) w' [Posted r (Aborted why)]
    end.

(** [logging.error(msg)]. *)
Definition logging_error (msg : string) : M W unit :=
  fun w => Run (Returns tt) w [LoggedError msg].

(** [response.json()]. *)
Definition response_json (r : response) : M W json :=
  match json_body r with
  | Some v => ret v
  | None => raise JSONDecodeError
  end.

Definition _get_post_headers (self : Vectara) : list (string * option string) :=
  [ ("x-api-key", _vectara_api_key self);
    ("customer-id", _vectara_customer_id self);
    ("Content-Type", Some "application/json") ].

Definition delete_request (self : Vectara) (doc_id : string) : request :=
  let body := JObj
    [ ("customer_id", Py.opt_str (_vectara_customer_id self));
      ("corpus_id", Py.opt_str (_vectara_corpus_id self));
      ("document_id", JStr doc_id) ] in
  {| url := "https://api.vectara.io/v1/delete-doc";
     data := dumps body;
     verify := Some true;
     headers := _get_post_headers self;
     timeout := None |}.

Definition delete_failed_msg (doc_id : string) (r : response) : string :=
  ("Delete request failed for doc_id = " ++ doc_id
     ++ " with status code " ++ Py.str_of_int (status_code r)
     ++ ", reason " ++ reason r ++ ", text " ++ text r)%string.

Definition _delete_doc (self : Vectara) (doc_id : string) : M W bool :=
  response <- session_post (delete_request self doc_id) ;;
  if negb (status_code response =? 200) then
    logging_error (delete_failed_msg doc_id response) ;;
    ret false
  else ret true.

Definition index_request (self : Vectara) (doc_id text : string)
           (metadata : strdict) : request :=
  let request := JObj
    [ ("customer_id", Py.opt_str (_vectara_customer_id self));
      ("corpus_id", Py.opt_str (_vectara_corpus_id self));
      ("document", JObj
         [ ("document_id", JStr doc_id);
           ("metadataJson", JStr (dumps (JObj metadata)));
           ("section", JArr
              [ JObj [ ("text", JStr text);
                       ("metadataJson", JStr (dumps (JObj metadata))) ] ]) ]) ] in
  {| headers := _get_post_headers self;
     url := "https://api.vectara.io/v1/index";
     data := dumps request;
     timeout := Some 30;
     verify := Some true |}.

(** [result["status"]["code"] if "status" in result else None]. *)
Definition status_str_of (result : json) : pyresult json :=
  match Py.contains_str "status" result with
  | Raises e => Raises e
  | Returns false => Returns JNull
  | Returns true =>
      match Py.getitem result "status" with
      | Raises e => Raises e
      | Returns status => Py.getitem status "code"
      end
  end.

Definition _index_doc (self : Vectara) (doc_id text : string)
           (metadata : strdict) : M W bool :=
  response <- session_post (index_request self doc_id text metadata) ;;
  let status_code := status_code response in
  result <- response_json response ;;
  status_str <- lift (status_str_of result) ;;
  if (status_code =? 409)
     || (Py.truthy status_str && Py.eq_str status_str "ALREADY_EXISTS")
  then ret false
  else ret true.

(** [metadatas[i] if metadatas else {}]. *)
Definition metadata_at (metadatas : option (list strdict)) (i : nat)
  : pyresult strdict :=
  match metadatas with
  | None | Some [] => Returns []
  | Some (m :: ms) => Py.list_getitem (m :: ms) i
  end.

(** The body of the loop of [add_texts]. *)
Definition add_text (self : Vectara) (ids : list string)
           (metadatas : option (list strdict)) (i : nat) (doc : string)
  : M W unit :=
  doc_id <- lift (Py.list_getitem ids i) ;;
  metadata <- lift (metadata_at metadatas i) ;;
  succeeded <- _index_doc self doc_id doc metadata ;;
  if negb succeeded then
    _delete_doc self doc_id ;;
    _index_doc self doc_id doc metadata ;;
    ret tt
  else ret tt.

Fixpoint add_texts_loop (self : Vectara) (ids : list string)
         (metadatas : option (list strdict)) (items : list (nat * string))
  : M W unit :=
  match items with
  | [] => ret tt
  | (i, doc) :: rest =>
      add_text self ids metadatas i doc ;;
      add_texts_loop self ids metadatas rest
  end.

Definition add_texts (self : Vectara) (texts : list string)
           (metadatas : option (list strdict)) : M W (list string) :=
  let ids := map doc_id_of texts in
  add_texts_loop self ids metadatas (Py.enumerate texts) ;;
  ret ids.

Definition query_request (self : Vectara) (query : string) (k : Z)
           (alpha : spec_float) (filter : option string) : request :=
  {| headers := _get_post_headers self;
     url := "https://api.vectara.io/v1/query";
     data := dumps (JObj
       [ ("query", JArr
          [ JObj
             [ ("query", JStr query);
               ("start", JInt 0);
               ("num_results", JInt k);
               ("context_config", JObj
                  [ ("sentences_before", JInt 3);
                    ("sentences_after", JInt 3) ]);
               ("corpus_key", JArr
                  [ JObj
                     [ ("customer_id", Py.opt_str (_vectara_customer_id self));
                       ("corpus_id", Py.opt_str (_vectara_corpus_id self));
                       ("metadataFilter", Py.opt_str filter);
                       ("lexical_interpolation_config", JObj
                          [ ("lambda", JFloat alpha) ]) ] ]) ] ]) ]);
     timeout := Some 10;
     verify := None |}.

Definition query_failed_msg (r : response) : string :=
  ("Query failed " ++ "(code " ++ Py.str_of_int (status_code r)
     ++ ", reason " ++ reason r ++ ", details " ++ text r ++ ")")%string.

(** The dict comprehension
    [{m["name"]: m["value"] for m in ms
      if m["name"] not in vectara_default_metadata}],
    run over the entries still to visit with the dict built so far. *)
Fixpoint metadata_comprehension (ms : list json) (acc : Py.dict)
  : M W Py.dict :=
  match ms with
  | [] => ret acc
  | m :: rest =>
      name <- lift (Py.getitem m "name") ;;
      if not_in_default_metadata name then
        key <- lift (Py.getitem m "name") ;;
        value <- lift (Py.getitem m "value") ;;
        if Py.hashable key
        then metadata_comprehension rest (Py.dict_set key value acc)
        else raise TypeError
      else metadata_comprehension rest acc
  end.

(** [Document(page_content=..., metadata=...)]. *)
Definition new_Document (content : json) (metadata : Py.dict) : M W Document :=
  match str_validator content with
  | Some s => ret {| page_content := s; metadata := metadata |}
  | None => raise ValidationError
  end.

(** The element [(Document(...), x["score"])] built for one hit [x]. *)
Definition doc_and_score (x : json) : M W (Document * json) :=
  content <- lift (Py.getitem x "text") ;;
  ms <- lift (Py.getitem x "metadata") ;;
  ms <- lift (Py.iter ms) ;;
  metadata <- metadata_comprehension ms [] ;;
  doc <- new_Document content metadata ;;
  score <- lift (Py.getitem x "score") ;;
  ret (doc, score).

Definition similarity_search_with_score (self : Vectara) (query : string)
           (k : Z) (alpha : spec_float) (filter : option string)
  : M W (list (Document * json)) :=
  response <- session_post (query_request self query k alpha filter) ;;
  if negb (status_code response =? 200) then
    logging_error (query_failed_msg response) ;;
    ret []
  else
    result <- response_json response ;;
    response_set <- lift (Py.getitem result "responseSet") ;;
    first <- lift (Py.getitem_int response_set 0) ;;
    responses <- lift (Py.getitem first "response") ;;
    xs <- lift (Py.iter responses) ;;
    comprehension doc_and_score xs.

Definition similarity_search (self : Vectara) (query : string)
           (k : Z) (alpha : spec_float) (filter : option string)
  : M W (list Document) :=
  docs_and_scores <-
    similarity_search_with_score self query k alpha filter ;;
  ret (map fst docs_and_scores).

(** The specification's reading of [Search]: run [SearchWithScore] and
    discard the scores of what it returns. *)
Definition discard_scores (r : run W (list (Document * json)))
  : run W (list Document) :=
  Run (match result_of r with
       | Returns ds => Returns (map fst ds)
       | Raises e => Raises e
       end)
      (world_of r) (events_of r).

Definition Search_spec (self : Vectara) (query : string)
           (k : Z) (alpha : spec_float) (filter : option string)
  : M W (list Document) :=
  fun w =>
    discard_scores (similarity_search_with_score self query k alpha filter w).

End Adapter.

Arguments session_post {W}.
Arguments logging_error {W}.
Arguments response_json {W}.
Arguments _delete_doc {W}.
Arguments _index_doc {W}.
Arguments add_text {W}.
Arguments add_texts_loop {W}.
Arguments add_texts {W}.
Arguments metadata_comprehension {W}.
Arguments new_Document {W}.
Arguments doc_and_score {W}.
Arguments similarity_search_with_score {W}.
Arguments similarity_search {W}.
Arguments discard_scores {W}.
Arguments Search_spec {W}.

(** Defaults of the keyword arguments of the two search methods:
    [k = 5] and [alpha = 0.025] (the nearest double). *)
Definition default_k : Z := 5.
Definition default_alpha : spec_float :=
  S754_finite false 7205759403792794 (-58).

(* ================================================================== *)
(** ** Vocabulary of the specification *)
(* ================================================================== *)

Definition index_url : string := "https://api.vectara.io/v1/index".
Definition delete_url : string := "https://api.vectara.io/v1/delete-doc".
Definition query_url : string := "https://api.vectara.io/v1/query".

(** The [code] member of the [status] member of a response body, when the
    body is an object that has both. *)
Definition status_code_field (body : json) : option json :=
  match body with
  | JObj o =>
      match Py.lookup "status" o with
      | Some (JObj st) => Py.lookup "code" st
      | _ => None
      end
  | _ => None
  end.

(** A response reports a conflict: HTTP 409, or a body whose status code
    field is the string ALREADY_EXISTS. *)
Definition reports_conflict (r : response) : bool :=
  (status_code r =? 409)
  || match json_body r with
     | Some body =>
         match status_code_field body with
         | Some (JStr c) => String.eqb c "ALREADY_EXISTS"
         | _ => false
         end
     | None => false
     end.

(** The JSON bodies in which [_index_doc] finds either no status at all or
    a status with a code: an object without a [status] member or whose
    [status] member is an object with a [code] member; an array none of
    whose elements is the string [status]; a string that does not contain
    [status]. *)
Definition readable_body (body : json) : bool :=
  match body with
  | JObj o =>
      match Py.lookup "status" o with
      | None => true
      | Some (JObj st) =>
          match Py.lookup "code" st with Some _ => true | None => false end
      | Some _ => false
      end
  | JArr l => negb (existsb (fun x => Py.eq_str x "status") l)
  | JStr s => negb (Py.is_substring "status" s)
  | _ => false
  end.

Definition readable (r : response) : bool :=
  match json_body r with
  | Some body => readable_body body
  | None => false
  end.

(** A remote service that answers every call, and answers index calls
    with a readable body. Status codes are unconstrained. *)
Definition answers_readably {W} (post : request -> W -> outcome * W) : Prop :=
  forall req w, exists r w',
    post req w = (Answered r, w')
    /\ (url req = index_url -> readable r = true).

(** One hit of a search response, in the shape of the remote API:
    [{text, score, metadata: [{name, value}]}]. *)
Record hit := Hit {
  hit_text : string;
  hit_score : json;
  hit_metadata : list (string * json)
}.

Definition is_entry (m : json) (nv : string * json) : Prop :=
  Py.getitem m "name" = Returns (JStr (fst nv))
  /\ Py.getitem m "value" = Returns (snd nv).

Definition is_hit (x : json) (h : hit) : Prop :=
  Py.getitem x "text" = Returns (JStr (hit_text h))
  /\ Py.getitem x "score" = Returns (hit_score h)
  /\ exists ms, Py.getitem x "metadata" = Returns (JArr ms)
                /\ Forall2 is_entry ms (hit_metadata h).

(** A body [{responseSet: [{response: [hit, ...]}, ...]}] that carries the
    hits [hs], in order, in its first response set. *)
Definition carries_hits (body : json) (hs : list hit) : Prop :=
  exists response_set first xs,
    Py.getitem body "responseSet" = Returns response_set
    /\ Py.getitem_int response_set 0 = Returns first
    /\ Py.getitem first "response" = Returns (JArr xs)
    /\ Forall2 is_hit xs hs.

Definition reserved (name : string) : bool :=
  existsb (String.eqb name) ["lang"; "len"; "offset"].

(** The entries of a hit whose names are not reserved. *)
Definition kept_entries (h : hit) : list (string * json) :=
  filter (fun nv => negb (reserved (fst nv))) (hit_metadata h).

(* ================================================================== *)
(** ** A scripted remote service, for worked examples *)
(* ================================================================== *)

Module Scripted.

(** The world is the list of outcomes still to be played; once the
    script is exhausted every call is answered 200 with an empty
    object. *)
Definition world := list outcome.

Definition ok : response := Response 200 "OK" "{}" (Some (JObj [])).

Definition post (req : request) (w : world) : outcome * world :=
  match w with
  | [] => (Answered ok, [])
  | o :: rest => (o, rest)
  end.

(** A placeholder serialiser: no property below looks into what
    [json.dumps] produces. *)
Definition dumps (v : json) : string :=
  match v with
  | JObj [] => "{}"
  | _ => "{...}"
  end.

(** Strict validation: only a [str] is accepted as [page_content]. *)
Definition str_validator (v : json) : option string :=
  match v with JStr s => Some s | _ => None end.

Definition store : Vectara :=
  {| _vectara_customer_id := Some "1234";
     _vectara_corpus_id := Some "1";
     _vectara_api_key := Some "zqt_key" |}.

Definition conflict : response :=
  Response 409 "Conflict" "{}"
           (Some (JObj [("status", JObj [("code", JStr "ALREADY_EXISTS")])])).

Definition bad_gateway : response :=
  Response 502 "Bad Gateway" "<html>502 Bad Gateway</html>" None.

Definition not_found : response :=
  Response 404 "Not Found" "{}" (Some (JObj [])).

Definition nato_hits : list hit :=
  [ Hit "NATO was founded in 1949." (JFloat (S754_finite false 7 (-3)))
        [("lang", JStr "eng"); ("source", JStr "wiki"); ("len", JInt 25)];
    Hit "The alliance has 31 members." (JFloat (S754_finite false 5 (-3)))
        [("offset", JInt 120); ("page", JInt 2)];
    Hit "Its seat is in Brussels." (JFloat (S754_finite false 1 (-2)))
        [] ].

Definition entry_json (nv : string * json) : json :=
  JObj [("name", JStr (fst nv)); ("value", snd nv)].

Definition hit_json (h : hit) : json :=
  JObj [ ("text", JStr (hit_text h));
         ("score", hit_score h);
         ("metadata", JArr (map entry_json (hit_metadata h))) ].

Definition search_body (hs : list hit) : json :=
  JObj [("responseSet", JArr [JObj [("response", JArr (map hit_json hs))]])].

Definition nato_response : response :=
  Response 200 "OK" "{...}" (Some (search_body nato_hits)).

End Scripted.


(** A remote service that answers every call, alternately with a conflict
    and with an application error in a JSON body. *)
Module Alternating.

Definition world := nat.

Definition server_error : response :=
  Response 500 "Internal Server Error" "{...}"
           (Some (JObj [("status", JObj [("code", JStr "INTERNAL")])])).

Definition post (req : request) (n : world) : outcome * world :=
  (Answered (if Nat.even n then Scripted.conflict else server_error),
   Datatypes.S n).

End Alternating.

(* ================================================================== *)
(** ** Vocabulary for runs *)
(* ================================================================== *)

(** A run that continues another one: the events already emitted come
    first. *)
Definition after {W A} (evs : list event) (r : run W A) : run W A :=
  Run (result_of r) (world_of r) (evs ++ events_of r).

Definition is_abort (e : event) : bool :=
  match e with
  | Posted _ (Aborted _) => true
  | _ => false
  end.

(** No call of the run was aborted. *)
Definition quiet (evs : list event) : Prop :=
  Forall (fun e => is_abort e = false) evs.

(** An aborted call is never followed by anything: it can only be the last
    event of a run, and the run then raises the failure of that call. *)
Definition abort_final {W A} (r : run W A) : Prop :=
  match result_of r with
  | Returns _ => quiet (events_of r)
  | Raises e =>
      quiet (events_of r)
      \/ exists evs req why,
           events_of r = evs ++ [Posted req (Aborted why)]
           /\ quiet evs
           /\ e = RequestException why
  end.

(** The two kinds of call [add_texts] makes, with their time limits. *)
Definition index_or_delete_call (req : request) : Prop :=
  (url req = index_url /\ timeout req = Some 30)
  \/ (url req = delete_url /\ timeout req = None).

(** The metadata dict the specification expects for a hit whose entry
    names are pairwise distinct: the kept entries, in order. *)
Definition stripped_metadata (h : hit) : Py.dict :=
  map (fun nv => (JStr (fst nv), snd nv)) (kept_entries h).

(** What the dict comprehension computes from the entries of a hit. *)
Definition comprehended_metadata (h : hit) : Py.dict :=
  fold_left (fun acc nv => Py.dict_set (JStr (fst nv)) (snd nv) acc)
            (kept_entries h) [].

Definition document_of (h : hit) : Document * json :=
  ({| page_content := hit_text h; metadata := comprehended_metadata h |},
   hit_score h).

(** [metadatas] is usable for [n] texts: absent, empty, or at least [n]
    entries long. *)
Definition covers (metadatas : option (list strdict)) (n : nat) : Prop :=
  match metadatas with
  | None | Some [] => True
  | Some ms => (n <= List.length ms)%nat
  end.

(** A computation that posts nothing, logs nothing and leaves the world
    as it found it. *)
Definition effect_free {W A} (m : M W A) : Prop :=
  forall w, world_of (m w) = w /\ events_of (m w) = [].

(** The events of a run of the loop of [add_texts], item by item: the
    events of the loop body on the first item, then, if that returned,
    those of the next item from the world it left, and so on. *)
Fixpoint item_events {W} (post : request -> W -> outcome * W)
         (dumps : json -> string) (self : Vectara) (ids : list string)
         (metadatas : option (list strdict)) (items : list (nat * string))
         (w : W) : list (list event) :=
  match items with
  | [] => []
  | (i, doc) :: rest =>
      let r := add_text post dumps self ids metadatas i doc w in
      events_of r ::
        match result_of r with
        | Returns _ =>
            item_events post dumps self ids metadatas rest (world_of r)
        | Raises _ => []
        end
  end.

(* ================================================================== *)
(** ** The rest of the class, the retriever and the web service *)
(* ================================================================== *)

(** [os.environ]. *)
Definition environ := string -> option string.

(** [arg or os.environ.get(name)]: an argument that is [None] or the empty
    string gives way to the environment. *)
Definition or_environ (arg : option string) (env : environ) (name : string)
  : option string :=
  match arg with
  | Some s => if String.eqb s "" then env name else Some s
  | None => env name
  end.

(** The records [__init__] hands to [logging]. *)
Inductive init_record :=
| Warning (msg : string)
| Debug (msg : string).

Definition missing_credentials_msg : string :=
  "Cant find Vectara credentials, customer_id or corpus_id in environment.".

(** [Vectara.__init__]: the adapter it sets up and the record it logs. *)
Definition __init__ (env : environ)
           (vectara_customer_id vectara_corpus_id vectara_api_key : option string)
  : Vectara * list init_record :=
  let customer_id := or_environ vectara_customer_id env "VECTARA_CUSTOMER_ID" in
  let corpus_id := or_environ vectara_corpus_id env "VECTARA_CORPUS_ID" in
  let api_key := or_environ vectara_api_key env "VECTARA_API_KEY" in
  let self :=
    {| _vectara_customer_id := customer_id;
       _vectara_corpus_id := corpus_id;
       _vectara_api_key := api_key |} in
  match customer_id, corpus_id, api_key with
  | Some _, Some corpus, Some _ =>
      (self, [Debug ("Using corpus id " ++ corpus)%string])
  | _, _, _ => (self, [Warning missing_credentials_msg])
  end.

(** [Vectara.from_texts]: build the adapter from the keyword arguments,
    add the texts, return the adapter. The [embedding] argument is not
    used. *)
Definition from_texts {W E} (post : request -> W -> outcome * W)
           (dumps : json -> string) (env : environ)
           (texts : list string) (embedding : option E)
           (metadatas : option (list strdict))
           (vectara_customer_id vectara_corpus_id vectara_api_key : option string)
  : list init_record * M W Vectara :=
  let '(vectara, records) :=
    __init__ env vectara_customer_id vectara_corpus_id vectara_api_key in
  (records,
   (add_texts post dumps vectara texts metadatas ;;
    ret vectara)%py).

(** [VectaraRetriever]: the store and the search parameters. *)
Record VectaraRetriever := {
  vectorstore : Vectara;
  search_kwargs : strdict
}.

(** The default of [search_kwargs]. *)
Definition default_search_kwargs : strdict :=
  [("alpha", JFloat default_alpha); ("k", JInt 5)].

(** [VectaraRetriever.add_texts]: adds the texts to the store and returns
    [None]. *)
Definition retriever_add_texts {W} (post : request -> W -> outcome * W)
           (dumps : json -> string) (self : VectaraRetriever)
           (texts : list string) (metadatas : option (list strdict))
  : M W unit :=
  (add_texts post dumps (vectorstore self) texts metadatas ;;
   ret tt)%py.

(** [try: body / except: handler], with a bare [except]. *)
Definition try_except {W A} (body handler : M W A) : M W A :=
  fun w =>
    let r := body w in
    match result_of r with
    | Returns _ => r
    | Raises _ => after (events_of r) (handler (world_of r))
    end.

Module Main.

(** The request model [Item] of [main.py]. *)
Record Item := { query : string }.

Definition error_message : json :=
  JObj [("message", JStr "Some Error Occurred")].

(** [read_root]. *)
Definition read_root : json := JObj [("Hello", JStr "WORLD")].

(** [reply], over [index.query], the question-answering pipeline built at
    import time. *)
Definition reply {W} (index_query : string -> M W json) (item : Item)
  : M W json :=
  try_except (response <- index_query (query item) ;; ret response)%py
             (ret error_message).

End Main.

(** A remote service that accepts everything: every call is answered 200
    with an empty object. *)
Module Calm.

Definition world := unit.

Definition post (req : request) (w : world) : outcome * world :=
  (Answered Scripted.ok, tt).

End Calm.

(** A remote service that answers every call readably and never reports a
    conflict. *)
Definition answers_without_conflict {W} (post : request -> W -> outcome * W)
  : Prop :=
  forall req w, exists r w',
    post req w = (Answered r, w')
    /\ readable r = true
    /\ reports_conflict r = false.

(** The metadata [add_texts] passes for position [i], once the subscript
    has returned. *)
Definition metadata_for (metadatas : option (list strdict)) (i : nat)
  : strdict :=
  match metadata_at metadatas i with
  | Returns m => m
  | Raises _ => []
  end.

Definition is_lower_hex (c : ascii) : bool :=
  existsb (Ascii.eqb c) (list_ascii_of_string "0123456789abcdef").

(* ================================================================== *)
(** ** Properties *)
(* ================================================================== *)

(** *** Runs *)

Section Runs.

Context {W : Type}.

Lemma bind_returns {A B} (m : M W A) (k : A -> M W B) w a w1 evs :
  m w = Run (Returns a) w1 evs ->
  bind m k w = after evs (k a w1).
Proof. intros H. unfold bind, after. now rewrite H. Qed.

Lemma bind_raises {A B} (m : M W A) (k : A -> M W B) w e w1 evs :
  m w = Run (Raises e) w1 evs ->
  bind m k w = Run (Raises e) w1 evs.
Proof. intros H. unfold bind. now rewrite H. Qed.

Lemma bind_lift_returns {A B} (a : A) (k : A -> M W B) w :
  bind (lift (Returns a)) k w = k a w.
Proof. reflexivity. Qed.

Lemma bind_ret {A B} (a : A) (k : A -> M W B) w :
  bind (ret a) k w = k a w.
Proof. reflexivity. Qed.

Lemma requests_of_app evs1 evs2 :
  requests_of (evs1 ++ evs2) = requests_of evs1 ++ requests_of evs2.
Proof.
  induction evs1 as [| [r o | m] evs1 IH]; cbn; now rewrite ?IH.
Qed.

Lemma quiet_app evs1 evs2 : quiet evs1 -> quiet evs2 -> quiet (evs1 ++ evs2).
Proof. unfold quiet. intros. now apply Forall_app. Qed.

Lemma abort_final_bind {A B} (m : M W A) (k : A -> M W B) w :
  abort_final (m w) ->
  (forall a w1, abort_final (k a w1)) ->
  abort_final (bind m k w).
Proof.
  intros Hm Hk. unfold bind, abort_final in *.
  destruct (result_of (m w)) as [a | e] eqn:Em; cbn.
  - specialize (Hk a (world_of (m w))).
    destruct (result_of (k a (world_of (m w)))) as [b | e'].
    + now apply quiet_app.
    + destruct Hk as [Hq | (evs & req & why & Hev & Hq & He)].
      * left. now apply quiet_app.
      * right. exists (events_of (m w) ++ evs), req, why.
        rewrite Hev, app_assoc. repeat split; trivial.
        now apply quiet_app.
  - exact Hm.
Qed.

Lemma abort_final_ret {A} (a : A) (w : W) : abort_final (ret a w).
Proof. constructor. Qed.

Lemma abort_final_raise {A} e (w : W) : abort_final (@raise W A e w).
Proof. left. constructor. Qed.

Lemma abort_final_lift {A} (r : pyresult A) (w : W) : abort_final (lift r w).
Proof. destruct r; [apply abort_final_ret | apply abort_final_raise]. Qed.

Lemma abort_final_logging msg (w : W) : abort_final (logging_error msg w).
Proof. repeat constructor. Qed.

Lemma abort_final_post post req (w : W) : abort_final (session_post post req w).
Proof.
  unfold session_post, abort_final.
  destruct (post req w) as [[r | why] w1]; cbn.
  - repeat constructor.
  - right. exists [], req, why. repeat split. constructor.
Qed.

End Runs.

(** *** Reading the status of an index response *)

Lemma truthy_and_already_exists (s : json) :
  Py.truthy s && Py.eq_str s "ALREADY_EXISTS"
  = match s with
    | JStr c => String.eqb c "ALREADY_EXISTS"
    | _ => false
    end.
Proof.
  destruct s as [| b | z | f | c | l | o]; cbn;
    try reflexivity; try apply andb_false_r.
  destruct (String.eqb c "ALREADY_EXISTS") eqn:E.
  - apply String.eqb_eq in E. now subst c.
  - apply andb_false_r.
Qed.

Lemma status_str_of_readable (body : json) :
  readable_body body = true ->
  exists s, status_str_of body = Returns s
            /\ Py.truthy s && Py.eq_str s "ALREADY_EXISTS"
               = match status_code_field body with
                 | Some (JStr c) => String.eqb c "ALREADY_EXISTS"
                 | _ => false
                 end.
Proof.
  destruct body as [| b | z | f | t | l | o]; cbn; try discriminate.
  - intros H. apply negb_true_iff in H. unfold status_str_of. cbn.
    rewrite H. now exists JNull.
  - intros H. apply negb_true_iff in H. unfold status_str_of. cbn.
    rewrite H. now exists JNull.
  - unfold status_str_of. cbn.
    destruct (Py.lookup "status" o) as [st |]; [| now exists JNull].
    destruct st as [| b | z | f | t | l | st]; try discriminate. cbn.
    destruct (Py.lookup "code" st) as [c |]; [| discriminate].
    intros _. exists c. split; [reflexivity |].
    rewrite truthy_and_already_exists. now destruct c.
Qed.

Lemma status_str_of_unreadable (body : json) :
  readable_body body = false ->
  exists e, status_str_of body = Raises e.
Proof.
  destruct body as [| b | z | f | t | l | o]; cbn;
    try (intros _; now exists TypeError).
  - intros H. apply negb_false_iff in H. unfold status_str_of. cbn.
    rewrite H. now exists TypeError.
  - intros H. apply negb_false_iff in H. unfold status_str_of. cbn.
    rewrite H. now exists TypeError.
  - unfold status_str_of. cbn.
    destruct (Py.lookup "status" o) as [st |]; [| discriminate].
    destruct st as [| b | z | f | t | l | st]; cbn;
      try (intros _; now exists TypeError).
    destruct (Py.lookup "code" st) as [c |]; [discriminate |].
    intros _. now exists (KeyError (JStr "code")).
Qed.

(** *** Single calls *)

Section Calls.

Variable W : Type.
Variable post : request -> W -> outcome * W.
Variable dumps : json -> string.
Variable self : Vectara.

Lemma session_post_answered (req : request) (w w' : W) (r : response) :
  post req w = (Answered r, w') ->
  session_post post req w = Run (Returns r) w' [Posted req (Answered r)].
Proof. intros H. unfold session_post. now rewrite H. Qed.

Lemma session_post_aborted (req : request) (w w' : W) why :
  post req w = (Aborted why, w') ->
  session_post post req w
  = Run (Raises (RequestException why)) w' [Posted req (Aborted why)].
Proof. intros H. unfold session_post. now rewrite H. Qed.

Lemma delete_doc_answered (doc_id : string) (w w' : W) (r : response) :
  post (delete_request dumps self doc_id) w = (Answered r, w') ->
  _delete_doc post dumps self doc_id w =
    if status_code r =? 200
    then Run (Returns true) w'
             [Posted (delete_request dumps self doc_id) (Answered r)]
    else Run (Returns false) w'
             [Posted (delete_request dumps self doc_id) (Answered r);
              LoggedError (delete_failed_msg doc_id r)].
Proof.
  intros H. unfold _delete_doc, bind.
  rewrite (session_post_answered _ _ _ _ H). cbn.
  destruct (status_code r =? 200); reflexivity.
Qed.

Lemma delete_doc_aborted (doc_id : string) (w w' : W) why :
  post (delete_request dumps self doc_id) w = (Aborted why, w') ->
  _delete_doc post dumps self doc_id w =
    Run (Raises (RequestException why)) w'
        [Posted (delete_request dumps self doc_id) (Aborted why)].
Proof.
  intros H. unfold _delete_doc, bind.
  now rewrite (session_post_aborted _ _ _ _ H).
Qed.

Lemma delete_doc_requests (doc_id : string) (w : W) :
  requests_of (events_of (_delete_doc post dumps self doc_id w))
  = [delete_request dumps self doc_id].
Proof.
  destruct (post (delete_request dumps self doc_id) w) as [[r | why] w'] eqn:H.
  - rewrite (delete_doc_answered _ _ _ _ H).
    destruct (status_code r =? 200); reflexivity.
  - now rewrite (delete_doc_aborted _ _ _ _ H).
Qed.

Lemma index_doc_aborted doc_id text metadata (w w' : W) why :
  post (index_request dumps self doc_id text metadata) w = (Aborted why, w') ->
  _index_doc post dumps self doc_id text metadata w =
    Run (Raises (RequestException why)) w'
        [Posted (index_request dumps self doc_id text metadata) (Aborted why)].
Proof.
  intros H. unfold _index_doc, bind.
  now rewrite (session_post_aborted _ _ _ _ H).
Qed.

Lemma index_doc_not_json doc_id text metadata (w w' : W) r :
  post (index_request dumps self doc_id text metadata) w = (Answered r, w') ->
  json_body r = None ->
  _index_doc post dumps self doc_id text metadata w =
    Run (Raises JSONDecodeError) w'
        [Posted (index_request dumps self doc_id text metadata) (Answered r)].
Proof.
  intros H Hb. unfold _index_doc, bind, response_json.
  rewrite (session_post_answered _ _ _ _ H). cbn. now rewrite Hb.
Qed.

Lemma index_doc_json doc_id text metadata (w w' : W) r body :
  post (index_request dumps self doc_id text metadata) w = (Answered r, w') ->
  json_body r = Some body ->
  _index_doc post dumps self doc_id text metadata w =
    Run (match status_str_of body with
         | Returns s =>
             Returns (negb ((status_code r =? 409)
                            || (Py.truthy s && Py.eq_str s "ALREADY_EXISTS")))
         | Raises e => Raises e
         end) w'
        [Posted (index_request dumps self doc_id text metadata) (Answered r)].
Proof.
  intros H Hb. unfold _index_doc, bind, response_json.
  rewrite (session_post_answered _ _ _ _ H). cbn. rewrite Hb. cbn.
  destruct (status_str_of body) as [s | e]; cbn; [| reflexivity].
  now destruct ((status_code r =? 409)
                || (Py.truthy s && Py.eq_str s "ALREADY_EXISTS")).
Qed.

Lemma index_doc_readable doc_id text metadata (w w' : W) r :
  post (index_request dumps self doc_id text metadata) w = (Answered r, w') ->
  readable r = true ->
  _index_doc post dumps self doc_id text metadata w =
    Run (Returns (negb (reports_conflict r))) w'
        [Posted (index_request dumps self doc_id text metadata) (Answered r)].
Proof.
  intros H Hr. unfold readable in Hr.
  destruct (json_body r) as [body |] eqn:Hb; [| discriminate].
  rewrite (index_doc_json _ _ _ _ _ _ _ H Hb).
  destruct (status_str_of_readable _ Hr) as (s & Hs & Hc).
  rewrite Hs, Hc. unfold reports_conflict. now rewrite Hb.
Qed.

Lemma index_doc_unreadable doc_id text metadata (w w' : W) r :
  post (index_request dumps self doc_id text metadata) w = (Answered r, w') ->
  readable r = false ->
  exists e,
    _index_doc post dumps self doc_id text metadata w =
      Run (Raises e) w'
          [Posted (index_request dumps self doc_id text metadata) (Answered r)].
Proof.
  intros H Hr. unfold readable in Hr.
  destruct (json_body r) as [body |] eqn:Hb.
  - destruct (status_str_of_unreadable _ Hr) as (e & He).
    exists e. rewrite (index_doc_json _ _ _ _ _ _ _ H Hb). now rewrite He.
  - exists JSONDecodeError. now apply index_doc_not_json.
Qed.

(** Whatever happens to it, an index call posts exactly its one
    request. *)
Lemma index_doc_events doc_id text metadata (w : W) :
  exists o,
    events_of (_index_doc post dumps self doc_id text metadata w)
    = [Posted (index_request dumps self doc_id text metadata) o].
Proof.
  destruct (post (index_request dumps self doc_id text metadata) w)
    as [[r | why] w'] eqn:H.
  - exists (Answered r). destruct (json_body r) as [body |] eqn:Hb.
    + now rewrite (index_doc_json _ _ _ _ _ _ _ H Hb).
    + now rewrite (index_doc_not_json _ _ _ _ _ _ H Hb).
  - exists (Aborted why). now rewrite (index_doc_aborted _ _ _ _ _ _ H).
Qed.

Lemma index_doc_requests doc_id text metadata (w : W) :
  requests_of (events_of (_index_doc post dumps self doc_id text metadata w))
  = [index_request dumps self doc_id text metadata].
Proof.
  destruct (index_doc_events doc_id text metadata w) as [o Ho].
  now rewrite Ho.
Qed.

Lemma abort_final_delete_doc doc_id (w : W) :
  abort_final (_delete_doc post dumps self doc_id w).
Proof.
  unfold _delete_doc. apply abort_final_bind; [apply abort_final_post |].
  intros r w1. destruct (negb (status_code r =? 200)).
  - apply abort_final_bind; [apply abort_final_logging |].
    intros. apply abort_final_ret.
  - apply abort_final_ret.
Qed.

Lemma abort_final_index_doc doc_id text metadata (w : W) :
  abort_final (_index_doc post dumps self doc_id text metadata w).
Proof.
  unfold _index_doc. apply abort_final_bind; [apply abort_final_post |].
  intros r w1. apply abort_final_bind.
  { unfold response_json. destruct (json_body r);
      [apply abort_final_ret | apply abort_final_raise]. }
  intros body w2. apply abort_final_bind; [apply abort_final_lift |].
  intros s w3.
  destruct ((status_code r =? 409)
            || (Py.truthy s && Py.eq_str s "ALREADY_EXISTS"));
    apply abort_final_ret.
Qed.

(** C8. For every id and every response to the delete call, [Delete(id)]
    returns false exactly when the status code is not 200, having logged
    one error record in that case and none otherwise; and whatever
    becomes of the call, [Delete] posts exactly one delete request (it
    never retries). *)
Theorem delete_doc_false_iff_not_200 (doc_id : string) (w : W) :
  requests_of (events_of (_delete_doc post dumps self doc_id w))
  = [delete_request dumps self doc_id]
  /\ forall r w',
      post (delete_request dumps self doc_id) w = (Answered r, w') ->
      exists b,
        result_of (_delete_doc post dumps self doc_id w) = Returns b
        /\ (b = false <-> status_code r <> 200)
        /\ errors_of (events_of (_delete_doc post dumps self doc_id w))
           = (if b then [] else [delete_failed_msg doc_id r]).
Proof.
  split; [apply delete_doc_requests |].
  intros r w' H. rewrite (delete_doc_answered _ _ _ _ H).
  destruct (status_code r =? 200) eqn:E.
  - exists true. apply Z.eqb_eq in E. repeat split; try discriminate.
    intros Hne. now elim Hne.
  - exists false. apply Z.eqb_neq in E. repeat split; trivial.
Qed.

(** C3 (amended). For every response to the index call whose body is
    readable (JSON in which the status is either absent or carries a
    code), [Upsert] raises nothing and returns false exactly when the
    response reports a conflict (HTTP 409, or status code
    ALREADY_EXISTS), true otherwise, whatever the HTTP status; for every
    other response it raises, having posted its one request. *)
Theorem index_doc_false_iff_conflict doc_id text metadata (w w' : W) r :
  post (index_request dumps self doc_id text metadata) w = (Answered r, w') ->
  (readable r = true ->
     _index_doc post dumps self doc_id text metadata w
     = Run (Returns (negb (reports_conflict r))) w'
           [Posted (index_request dumps self doc_id text metadata)
                   (Answered r)])
  /\ (readable r = false ->
        exists e,
          _index_doc post dumps self doc_id text metadata w
          = Run (Raises e) w'
                [Posted (index_request dumps self doc_id text metadata)
                        (Answered r)]).
Proof.
  intros H. split; intros Hr.
  - now apply index_doc_readable.
  - now apply index_doc_unreadable.
Qed.

End Calls.

(** *** Monad laws, pointwise *)

Section Laws.

Context {W : Type}.

Lemma bind_ext {A B} (m : M W A) (k k' : A -> M W B) w :
  (forall a w1, k a w1 = k' a w1) ->
  bind m k w = bind m k' w.
Proof.
  intros H. unfold bind.
  destruct (result_of (m w)); [now rewrite H | reflexivity].
Qed.

Lemma bind_assoc {A B C} (m : M W A) (k : A -> M W B) (k' : B -> M W C) w :
  bind (bind m k) k' w = bind m (fun a => bind (k a) k') w.
Proof.
  unfold bind. destruct (result_of (m w)) as [a | e]; cbn; [| reflexivity].
  destruct (result_of (k a (world_of (m w)))) as [b | e]; cbn;
    [| reflexivity].
  now rewrite app_assoc.
Qed.

Lemma bind_ret_tt {A} (m : M W unit) (a : A) w res w1 evs :
  m w = Run res w1 evs ->
  bind m (fun _ => ret a) w
  = Run (match res with Returns _ => Returns a | Raises e => Raises e end)
        w1 evs.
Proof.
  intros H. unfold bind. rewrite H. cbn.
  destruct res; cbn; [now rewrite app_nil_r | reflexivity].
Qed.

End Laws.

(** *** The loop of [add_texts] *)

Lemma enumerate_bound {A} (l : list A) i x :
  In (i, x) (Py.enumerate l) -> (i < List.length l)%nat.
Proof.
  unfold Py.enumerate. intros H. apply in_combine_l in H.
  apply in_seq in H. lia.
Qed.

Lemma combine_seq_nth {A} (l : list A) s i x :
  In (i, x) (combine (seq s (List.length l)) l) ->
  nth_error l (i - s) = Some x /\ (s <= i)%nat.
Proof.
  revert s. induction l as [| y l IH]; cbn; intros s H; [easy |].
  destruct H as [H | H].
  - inversion H; subst. rewrite Nat.sub_diag. now split.
  - apply IH in H. destruct H as [H Hs].
    replace (i - s)%nat with (Datatypes.S (i - Datatypes.S s)) by lia.
    split; [exact H | lia].
Qed.

Lemma enumerate_nth {A} (l : list A) i x :
  In (i, x) (Py.enumerate l) -> nth_error l i = Some x.
Proof.
  intros H. apply combine_seq_nth in H. now rewrite Nat.sub_0_r in H.
Qed.

Lemma combine_seq_app {A} (l1 l2 : list A) s :
  combine (seq s (List.length (l1 ++ l2))) (l1 ++ l2)
  = combine (seq s (List.length l1)) l1
    ++ combine (seq (s + List.length l1) (List.length l2)) l2.
Proof.
  revert s. induction l1 as [| x l1 IH]; intros s; cbn.
  - now rewrite Nat.add_0_r.
  - rewrite IH. now rewrite Nat.add_succ_r.
Qed.

Lemma enumerate_app {A} (l1 l2 : list A) :
  Py.enumerate (l1 ++ l2)
  = Py.enumerate l1 ++ combine (seq (List.length l1) (List.length l2)) l2.
Proof. unfold Py.enumerate. now rewrite combine_seq_app. Qed.

Lemma list_getitem_map {A B} (f : A -> B) (l : list A) i x :
  nth_error l i = Some x -> Py.list_getitem (map f l) i = Returns (f x).
Proof.
  intros H. unfold Py.list_getitem. now rewrite nth_error_map, H.
Qed.

Section AddTexts.

Variable W : Type.
Variable post : request -> W -> outcome * W.
Variable dumps : json -> string.
Variable self : Vectara.

Abbreviation upsert := (_index_doc post dumps self).
Abbreviation delete := (_delete_doc post dumps self).
Abbreviation idx := (index_request dumps self).
Abbreviation del := (delete_request dumps self).
Abbreviation body := (add_text post dumps self).
Abbreviation loop := (add_texts_loop post dumps self).

(** What follows a conflict: delete, then index again. *)
Abbreviation replace doc_id doc metadata :=
  (bind (delete doc_id)
        (fun _ => bind (upsert doc_id doc metadata) (fun _ => ret tt))).

Lemma events_bind_ret {A B} (m : M W A) (b : B) w :
  events_of (bind m (fun _ => ret b) w) = events_of (m w).
Proof.
  unfold bind. destruct (result_of (m w)); cbn; [apply app_nil_r | easy].
Qed.

Lemma add_text_ext ids ids' mds mds' i doc w :
  Py.list_getitem ids i = Py.list_getitem ids' i ->
  metadata_at mds i = metadata_at mds' i ->
  body ids mds i doc w = body ids' mds' i doc w.
Proof. intros H1 H2. unfold add_text. now rewrite H1, H2. Qed.

Lemma add_text_no_metadata ids mds i doc doc_id w :
  Py.list_getitem ids i = Returns doc_id ->
  metadata_at mds i = Raises IndexError ->
  body ids mds i doc w = Run (Raises IndexError) w [].
Proof. intros H1 H2. unfold add_text. now rewrite H1, H2. Qed.

(** The loop body once its two subscripts have returned. *)
Lemma add_text_shape ids mds i doc doc_id metadata w :
  Py.list_getitem ids i = Returns doc_id ->
  metadata_at mds i = Returns metadata ->
  let first := upsert doc_id doc metadata w in
  body ids mds i doc w
  = match result_of first with
    | Returns true => Run (Returns tt) (world_of first) (events_of first)
    | Returns false =>
        after (events_of first) (replace doc_id doc metadata (world_of first))
    | Raises e => Run (Raises e) (world_of first) (events_of first)
    end.
Proof.
  intros H1 H2 first. unfold add_text. rewrite H1, H2.
  rewrite !bind_lift_returns. unfold bind at 1. fold first.
  destruct (result_of first) as [[|] | e]; cbn; try reflexivity.
  now rewrite app_nil_r.
Qed.

Lemma replace_requests doc_id doc metadata w :
  let reqs := requests_of (events_of (replace doc_id doc metadata w)) in
  (reqs = [del doc_id] \/ reqs = [del doc_id; idx doc_id doc metadata])
  /\ (forall r w', post (del doc_id) w = (Answered r, w') ->
        reqs = [del doc_id; idx doc_id doc metadata]).
Proof.
  cbn zeta.
  destruct (post (del doc_id) w) as [[r | why] w1] eqn:Hd.
  - pose proof (delete_doc_answered _ post dumps self doc_id _ _ _ Hd) as E.
    assert (Hev : requests_of (events_of (replace doc_id doc metadata w))
                  = [del doc_id; idx doc_id doc metadata]).
    { unfold bind at 1. rewrite E.
      destruct (status_code r =? 200); cbn;
        rewrite events_bind_ret, ?requests_of_app, index_doc_requests;
        reflexivity. }
    split; [now right | intros; exact Hev].
  - pose proof (delete_doc_aborted _ post dumps self doc_id _ _ _ Hd) as E.
    split; [left | intros r w' H; discriminate].
    unfold bind at 1. now rewrite E.
Qed.

Lemma add_text_requests ids mds i doc doc_id metadata w :
  Py.list_getitem ids i = Returns doc_id ->
  metadata_at mds i = Returns metadata ->
  let reqs := requests_of (events_of (body ids mds i doc w)) in
  reqs = [idx doc_id doc metadata]
  \/ reqs = [idx doc_id doc metadata; del doc_id]
  \/ reqs = [idx doc_id doc metadata; del doc_id; idx doc_id doc metadata].
Proof.
  intros H1 H2. cbn zeta. rewrite (add_text_shape _ _ _ _ _ _ _ H1 H2).
  pose proof (index_doc_requests _ post dumps self doc_id doc metadata w) as Hi.
  destruct (result_of (upsert doc_id doc metadata w)) as [[|] | e]; cbn.
  - now left.
  - rewrite requests_of_app, Hi.
    destruct (replace_requests doc_id doc metadata
                (world_of (upsert doc_id doc metadata w))) as [[E | E] _];
      cbn zeta in E; rewrite E; auto.
  - now left.
Qed.

Lemma add_text_calls ids mds i doc w :
  Forall index_or_delete_call (requests_of (events_of (body ids mds i doc w))).
Proof.
  destruct (Py.list_getitem ids i) as [doc_id | e] eqn:H1.
  2:{ unfold add_text. rewrite H1. constructor. }
  destruct (metadata_at mds i) as [metadata | e] eqn:H2.
  2:{ unfold add_text. rewrite H1, H2. constructor. }
  assert (Hi : index_or_delete_call (idx doc_id doc metadata))
    by (left; now split).
  assert (Hd : index_or_delete_call (del doc_id))
    by (right; now split).
  destruct (add_text_requests _ _ _ doc _ _ w H1 H2) as [E | [E | E]];
    cbn zeta in E; rewrite E; repeat constructor; assumption.
Qed.

Lemma abort_final_add_text ids mds i doc w :
  abort_final (body ids mds i doc w).
Proof.
  unfold add_text.
  apply abort_final_bind; [apply abort_final_lift |]. intros doc_id w1.
  apply abort_final_bind; [apply abort_final_lift |]. intros metadata w2.
  apply abort_final_bind; [apply abort_final_index_doc |]. intros ok w3.
  destruct (negb ok); [| apply abort_final_ret].
  apply abort_final_bind; [apply abort_final_delete_doc |]. intros b w4.
  apply abort_final_bind; [apply abort_final_index_doc |]. intros b' w5.
  apply abort_final_ret.
Qed.

Lemma loop_ext ids ids' mds mds' items :
  (forall i doc, In (i, doc) items ->
     Py.list_getitem ids i = Py.list_getitem ids' i
     /\ metadata_at mds i = metadata_at mds' i) ->
  forall w, loop ids mds items w = loop ids' mds' items w.
Proof.
  induction items as [| [i doc] rest IH]; intros H w; [reflexivity |].
  cbn [add_texts_loop].
  destruct (H i doc (or_introl eq_refl)) as [H1 H2].
  unfold bind. rewrite (add_text_ext ids ids' mds mds' i doc w H1 H2).
  destruct (result_of (body ids' mds' i doc w)); [| reflexivity].
  rewrite IH; [reflexivity |]. intros i0 doc0 Hin. apply (H i0 doc0). now right.
Qed.

Lemma loop_app ids mds items1 items2 w :
  loop ids mds (items1 ++ items2) w
  = bind (loop ids mds items1) (fun _ => loop ids mds items2) w.
Proof.
  revert w. induction items1 as [| [i doc] rest IH]; intros w.
  - reflexivity.
  - cbn [app add_texts_loop]. rewrite bind_assoc.
    apply bind_ext. intros _ w1. apply IH.
Qed.

Lemma loop_events ids mds items w :
  events_of (loop ids mds items w)
  = List.concat (item_events post dumps self ids mds items w).
Proof.
  revert w. induction items as [| [i doc] rest IH]; intros w; [reflexivity |].
  cbn [add_texts_loop item_events List.concat]. unfold bind.
  destruct (result_of (body ids mds i doc w)); cbn.
  - now rewrite IH.
  - now rewrite app_nil_r.
Qed.

Lemma loop_calls ids mds items w :
  Forall index_or_delete_call (requests_of (events_of (loop ids mds items w))).
Proof.
  revert w. induction items as [| [i doc] rest IH]; intros w; [constructor |].
  cbn [add_texts_loop]. unfold bind.
  destruct (result_of (body ids mds i doc w)); cbn.
  - rewrite requests_of_app. apply Forall_app. split;
      [apply add_text_calls | apply IH].
  - apply add_text_calls.
Qed.

Lemma abort_final_loop ids mds items w :
  abort_final (loop ids mds items w).
Proof.
  revert w. induction items as [| [i doc] rest IH]; intros w.
  - apply abort_final_ret.
  - cbn [add_texts_loop]. apply abort_final_bind;
      [apply abort_final_add_text | intros; apply IH].
Qed.

End AddTexts.

Section AddTextsResults.

Variable W : Type.
Variable post : request -> W -> outcome * W.
Variable dumps : json -> string.
Variable self : Vectara.

Abbreviation upsert := (_index_doc post dumps self).
Abbreviation delete := (_delete_doc post dumps self).
Abbreviation idx := (index_request dumps self).
Abbreviation del := (delete_request dumps self).
Abbreviation body := (add_text post dumps self).
Abbreviation loop := (add_texts_loop post dumps self).
Abbreviation AddTexts := (add_texts post dumps self).

Lemma add_texts_unfold texts mds w :
  AddTexts texts mds w
  = let l := loop (map doc_id_of texts) mds (Py.enumerate texts) w in
    Run (match result_of l with
         | Returns _ => Returns (map doc_id_of texts)
         | Raises e => Raises e
         end) (world_of l) (events_of l).
Proof.
  unfold add_texts. cbn zeta.
  now apply bind_ret_tt.
Qed.

Lemma add_texts_result texts mds w ids :
  result_of (AddTexts texts mds w) = Returns ids ->
  ids = map doc_id_of texts.
Proof.
  rewrite add_texts_unfold. cbn.
  destruct (result_of (loop _ mds (Py.enumerate texts) w));
    intros H; now inversion H.
Qed.

Lemma add_text_returns ids mds i doc doc_id metadata w :
  answers_readably post ->
  Py.list_getitem ids i = Returns doc_id ->
  metadata_at mds i = Returns metadata ->
  result_of (body ids mds i doc w) = Returns tt.
Proof.
  intros Ha H1 H2. rewrite (add_text_shape _ _ _ _ _ _ _ _ _ _ _ H1 H2).
  destruct (Ha (idx doc_id doc metadata) w) as (r & w1 & Hp & Hr).
  rewrite (index_doc_readable _ _ _ _ _ _ _ _ _ _ Hp (Hr eq_refl)). cbn.
  destruct (reports_conflict r); cbn; [| reflexivity].
  destruct (Ha (del doc_id) w1) as (r2 & w2 & Hp2 & _).
  destruct (Ha (idx doc_id doc metadata) w2) as (r3 & w3 & Hp3 & Hr3).
  pose proof (index_doc_readable _ _ _ _ _ _ _ _ _ _ Hp3 (Hr3 eq_refl)) as E3.
  unfold bind at 1. rewrite (delete_doc_answered _ _ _ _ _ _ _ _ Hp2).
  destruct (status_code r2 =? 200); cbn; unfold bind; now rewrite E3.
Qed.

Lemma covers_metadata_at mds n i :
  covers mds n -> (i < n)%nat ->
  exists metadata, metadata_at mds i = Returns metadata.
Proof.
  destruct mds as [[| m ms] |]; cbn; intros Hc Hi;
    try (now exists []).
  unfold Py.list_getitem.
  destruct (nth_error (m :: ms) i) as [x |] eqn:E; [now exists x |].
  apply nth_error_None in E. cbn in E. lia.
Qed.

Lemma loop_returns ids mds items w :
  answers_readably post ->
  (forall i doc, In (i, doc) items ->
     (exists doc_id, Py.list_getitem ids i = Returns doc_id)
     /\ exists metadata, metadata_at mds i = Returns metadata) ->
  result_of (loop ids mds items w) = Returns tt.
Proof.
  intros Ha. revert w.
  induction items as [| [i doc] rest IH]; intros w H; [reflexivity |].
  cbn [add_texts_loop].
  destruct (H i doc (or_introl eq_refl)) as [[doc_id H1] [metadata H2]].
  unfold bind. rewrite (add_text_returns _ _ _ doc _ _ w Ha H1 H2). cbn.
  apply IH. intros i0 doc0 Hin. apply (H i0 doc0). now right.
Qed.

Lemma add_texts_returns texts mds w :
  covers mds (List.length texts) ->
  answers_readably post ->
  result_of (AddTexts texts mds w) = Returns (map doc_id_of texts).
Proof.
  intros Hc Ha. rewrite add_texts_unfold. cbn.
  rewrite loop_returns; trivial.
  intros i doc Hin. pose proof (enumerate_bound _ _ _ Hin) as Hi.
  split.
  - exists (doc_id_of doc). apply list_getitem_map.
    now apply enumerate_nth.
  - now apply covers_metadata_at with (n := List.length texts).
Qed.

End AddTextsResults.

Section AddTextsMetadatas.

Variable W : Type.
Variable post : request -> W -> outcome * W.
Variable dumps : json -> string.
Variable self : Vectara.

Abbreviation body := (add_text post dumps self).
Abbreviation loop := (add_texts_loop post dumps self).
Abbreviation AddTexts := (add_texts post dumps self).

(** With neither list nor entries, or with one empty dict per text, the
    loop passes the same metadata for every item. *)
Lemma add_texts_no_metadatas texts mds w :
  mds = None \/ mds = Some [] ->
  AddTexts texts mds w = AddTexts texts (Some (map (fun _ => []) texts)) w.
Proof.
  intros Hm. rewrite !add_texts_unfold. cbn zeta.
  rewrite (loop_ext _ post dumps self (map doc_id_of texts) (map doc_id_of texts)
             mds (Some (map (fun _ => []) texts))); [reflexivity |].
  intros i doc Hin. split; [reflexivity |].
  apply enumerate_nth in Hin.
  assert (E : metadata_at mds i = Returns [])
    by (destruct Hm; subst mds; reflexivity).
  rewrite E. destruct texts as [| t texts]; [now destruct i |].
  cbn [map metadata_at]. unfold Py.list_getitem.
  change ([] :: map (fun _ : string => []) texts)
    with (map (fun _ : string => @nil (string * json)) (t :: texts)).
  now rewrite nth_error_map, Hin.
Qed.

Lemma enumerate_split (texts : list string) n x rest :
  skipn n texts = x :: rest -> (n <= List.length texts)%nat ->
  Py.enumerate texts
  = Py.enumerate (firstn n texts)
    ++ (n, x) :: combine (seq (Datatypes.S n) (List.length rest)) rest.
Proof.
  intros Hs Hn. rewrite <- (firstn_skipn n texts) at 1.
  rewrite enumerate_app, Hs, length_firstn, Nat.min_l by exact Hn.
  reflexivity.
Qed.

Lemma add_texts_short texts ms w :
  ms <> [] -> (List.length ms < List.length texts)%nat ->
  AddTexts texts (Some ms) w
  = bind (AddTexts (firstn (List.length ms) texts) (Some ms))
         (fun _ => raise IndexError) w.
Proof.
  intros Hne Hlt. set (n := List.length ms).
  destruct (skipn n texts) as [| x rest] eqn:Hs.
  { apply (f_equal (@List.length _)) in Hs. rewrite length_skipn in Hs.
    cbn in Hs. lia. }
  assert (Hx : nth_error texts n = Some x).
  { rewrite <- (firstn_skipn n texts), nth_error_app2, length_firstn, Hs;
      rewrite ?length_firstn; try lia.
    replace (n - Nat.min n (List.length texts))%nat with 0%nat by lia.
    reflexivity. }
  unfold bind at 1. rewrite !add_texts_unfold. cbn zeta.
  rewrite (enumerate_split texts n x rest Hs) by lia.
  rewrite loop_app.
  rewrite (loop_ext _ post dumps self (map doc_id_of (firstn n texts))
             (map doc_id_of texts) (Some ms) (Some ms)).
  2:{ intros i doc Hin. split; [| reflexivity].
      apply enumerate_nth in Hin.
      rewrite (list_getitem_map _ _ _ _ Hin).
      symmetry. apply list_getitem_map.
      rewrite nth_error_firstn in Hin.
      destruct (i <? n)%nat; [exact Hin | discriminate]. }
  unfold bind.
  destruct (result_of (loop (map doc_id_of texts) (Some ms)
                            (Py.enumerate (firstn n texts)) w)); cbn.
  - cbn [add_texts_loop]. unfold bind.
    rewrite (add_text_no_metadata _ post dumps self _ _ _ _ (doc_id_of x)).
    + cbn. now rewrite !app_nil_r.
    + now apply list_getitem_map.
    + destruct ms as [| m ms']; [easy |]. cbn [metadata_at].
      unfold Py.list_getitem.
      assert (E : nth_error (m :: ms') n = None)
        by (apply nth_error_None; unfold n; lia).
      now rewrite E.
  - reflexivity.
Qed.

End AddTextsMetadatas.

(** *** Dicts keyed by strings *)

Lemma key_eqb_str (k : json) (n : string) :
  Py.key_eqb k (JStr n) = true <-> k = JStr n.
Proof.
  split.
  - destruct k as [| b | z | f | s | l | o]; cbn; try discriminate.
    intros H. apply String.eqb_eq in H. now subst.
  - intros ->. cbn. apply String.eqb_refl.
Qed.

Lemma dict_get_set_str (n n' : string) (v : json) (d : Py.dict) :
  Py.dict_get (JStr n') (Py.dict_set (JStr n) v d)
  = if String.eqb n n' then Some v else Py.dict_get (JStr n') d.
Proof.
  induction d as [| [k x] d IH]; cbn.
  - reflexivity.
  - destruct (Py.key_eqb k (JStr n)) eqn:E.
    + apply key_eqb_str in E. subst k. cbn.
      now destruct (String.eqb n n').
    + cbn. rewrite IH.
      destruct (Py.key_eqb k (JStr n')) eqn:E'; [| reflexivity].
      apply key_eqb_str in E'. subst k. cbn in E.
      destruct (String.eqb n n') eqn:E2; [| reflexivity].
      apply String.eqb_eq in E2. subst n'.
      now rewrite String.eqb_refl in E.
Qed.

Lemma dict_set_fresh (n : string) (v : json) (l : list (string * json)) :
  ~ In n (map fst l) ->
  Py.dict_set (JStr n) v (map (fun nv => (JStr (fst nv), snd nv)) l)
  = map (fun nv => (JStr (fst nv), snd nv)) (l ++ [(n, v)]).
Proof.
  induction l as [| [m x] l IH]; cbn; intros H; [reflexivity |].
  destruct (String.eqb m n) eqn:E.
  - apply String.eqb_eq in E. elim H. now left.
  - rewrite IH; [reflexivity |]. intros Hin. apply H. now right.
Qed.

Lemma find_last {A} (f : A -> bool) (l : list A) (x : A) :
  find f (l ++ [x])
  = match find f l with
    | Some y => Some y
    | None => if f x then Some x else None
    end.
Proof.
  induction l as [| y l IH]; cbn; [reflexivity |].
  destruct (f y); [reflexivity | exact IH].
Qed.

(** After the comprehension has run over [l], a name is bound to the value
    of its last entry in [l], or else as it was before. *)
Lemma dict_get_fold (l : list (string * json)) (acc : Py.dict) (n : string) :
  Py.dict_get (JStr n)
    (fold_left (fun acc nv => Py.dict_set (JStr (fst nv)) (snd nv) acc) l acc)
  = match find (fun nv => String.eqb (fst nv) n) (rev l) with
    | Some nv => Some (snd nv)
    | None => Py.dict_get (JStr n) acc
    end.
Proof.
  revert acc. induction l as [| [m x] l IH]; intros acc; cbn; [reflexivity |].
  rewrite IH, find_last. cbn.
  destruct (find (fun nv => String.eqb (fst nv) n) (rev l));
    [reflexivity |].
  rewrite dict_get_set_str. now destruct (String.eqb m n).
Qed.

Lemma fold_dict_set_fresh (l acc : list (string * json)) :
  NoDup (map fst (acc ++ l)) ->
  fold_left (fun acc nv => Py.dict_set (JStr (fst nv)) (snd nv) acc) l
            (map (fun nv => (JStr (fst nv), snd nv)) acc)
  = map (fun nv => (JStr (fst nv), snd nv)) (acc ++ l).
Proof.
  revert acc. induction l as [| [m x] l IH]; intros acc H; cbn.
  - now rewrite app_nil_r.
  - rewrite dict_set_fresh.
    + rewrite IH; rewrite <- app_assoc; [reflexivity | exact H].
    + rewrite map_app in H. cbn in H. apply NoDup_remove_2 in H.
      intros Hin. apply H. apply in_or_app. now left.
Qed.

(** Dropping entries keeps the remaining names pairwise distinct. *)
Lemma kept_names_distinct (keep : string * json -> bool)
      (entries : list (string * json)) :
  NoDup (map fst entries) -> NoDup (map fst (filter keep entries)).
Proof.
  induction entries as [| [n v] entries IH]; cbn; intros Hnd.
  - constructor.
  - apply NoDup_cons_iff in Hnd. destruct Hnd as [Hfresh Hrest].
    destruct (keep (n, v)); cbn; [| now apply IH].
    constructor; [| now apply IH].
    intros Hin. apply Hfresh. apply in_map_iff in Hin.
    destruct Hin as ([m x] & Hm & Hx). apply filter_In in Hx.
    apply in_map_iff. exists (m, x). tauto.
Qed.

(** What the metadata of a returned [Document] holds, relative to the
    entries of its hit. *)
Lemma comprehended_metadata_sound (h : hit) (n : string) (v : json) :
  Py.dict_get (JStr n) (comprehended_metadata h) = Some v ->
  In (n, v) (hit_metadata h) /\ reserved n = false.
Proof.
  unfold comprehended_metadata. rewrite dict_get_fold. cbn.
  destruct (find _ (rev (kept_entries h))) as [[m x] |] eqn:E;
    [| discriminate].
  intros H. inversion H; subst. apply find_some in E. cbn in E.
  destruct E as [Hin Hn]. apply String.eqb_eq in Hn. subst m.
  apply in_rev in Hin. unfold kept_entries in Hin.
  apply filter_In in Hin. cbn in Hin. destruct Hin as [Hin Hr].
  split; [exact Hin | now apply negb_true_iff].
Qed.

Lemma comprehended_metadata_complete (h : hit) (n : string) (v : json) :
  In (n, v) (hit_metadata h) -> reserved n = false ->
  exists v', Py.dict_get (JStr n) (comprehended_metadata h) = Some v'.
Proof.
  intros Hin Hr. unfold comprehended_metadata. rewrite dict_get_fold.
  destruct (find _ (rev (kept_entries h))) as [[m x] |] eqn:E.
  - now exists x.
  - exfalso. assert (Hk : In (n, v) (rev (kept_entries h))).
    { apply in_rev. rewrite rev_involutive. unfold kept_entries.
      apply filter_In. split; [exact Hin |]. cbn [fst]. now rewrite Hr. }
    pose proof (find_none _ _ E (n, v) Hk) as Hf. cbn in Hf.
    now rewrite String.eqb_refl in Hf.
Qed.

Lemma comprehended_metadata_distinct (h : hit) :
  NoDup (map fst (hit_metadata h)) ->
  comprehended_metadata h = stripped_metadata h.
Proof.
  intros H. unfold comprehended_metadata, stripped_metadata.
  apply (fold_dict_set_fresh (kept_entries h) []). cbn.
  now apply kept_names_distinct.
Qed.

(** *** Building the documents of a search response *)

Section Documents.

Context {W : Type}.
Variable str_validator : json -> option string.

Lemma effect_free_ret {A} (a : A) : effect_free (@ret W A a).
Proof. intros w. now split. Qed.

Lemma effect_free_raise {A} e : effect_free (@raise W A e).
Proof. intros w. now split. Qed.

Lemma effect_free_lift {A} (r : pyresult A) : effect_free (@lift W A r).
Proof. destruct r; [apply effect_free_ret | apply effect_free_raise]. Qed.

Lemma effect_free_bind {A B} (m : M W A) (k : A -> M W B) :
  effect_free m -> (forall a, effect_free (k a)) ->
  effect_free (bind m k).
Proof.
  intros Hm Hk w. destruct (Hm w) as [Hw He]. unfold bind.
  destruct (result_of (m w)) as [a | e]; cbn.
  - destruct (Hk a (world_of (m w))) as [Hw' He'].
    rewrite Hw', He', He, Hw. now split.
  - now split.
Qed.

Lemma effect_free_metadata_comprehension ms acc :
  effect_free (@metadata_comprehension W ms acc).
Proof.
  revert acc. induction ms as [| m ms IH]; intros acc; cbn.
  - apply effect_free_ret.
  - apply effect_free_bind; [apply effect_free_lift |]. intros name.
    destruct (not_in_default_metadata name); [| apply IH].
    apply effect_free_bind; [apply effect_free_lift |]. intros key.
    apply effect_free_bind; [apply effect_free_lift |]. intros value.
    destruct (Py.hashable key); [apply IH | apply effect_free_raise].
Qed.

Lemma effect_free_new_Document content metadata :
  effect_free (@new_Document W str_validator content metadata).
Proof.
  unfold new_Document. destruct (str_validator content);
    [apply effect_free_ret | apply effect_free_raise].
Qed.

Lemma effect_free_doc_and_score x :
  effect_free (@doc_and_score W str_validator x).
Proof.
  unfold doc_and_score.
  apply effect_free_bind; [apply effect_free_lift |]. intros content.
  apply effect_free_bind; [apply effect_free_lift |]. intros ms.
  apply effect_free_bind; [apply effect_free_lift |]. intros ms'.
  apply effect_free_bind; [apply effect_free_metadata_comprehension |].
  intros metadata.
  apply effect_free_bind; [apply effect_free_new_Document |]. intros doc.
  apply effect_free_bind; [apply effect_free_lift |]. intros score.
  apply effect_free_ret.
Qed.

Lemma effect_free_comprehension {A B} (f : A -> M W B) xs :
  (forall x, effect_free (f x)) -> effect_free (comprehension f xs).
Proof.
  intros Hf. induction xs as [| x xs IH]; cbn.
  - apply effect_free_ret.
  - apply effect_free_bind; [apply Hf |]. intros y.
    apply effect_free_bind; [apply IH |]. intros ys.
    apply effect_free_ret.
Qed.

Lemma not_in_default_metadata_str (n : string) :
  not_in_default_metadata (JStr n) = negb (reserved n).
Proof. reflexivity. Qed.

Lemma metadata_comprehension_entries ms entries :
  Forall2 is_entry ms entries ->
  forall acc (w : W),
    metadata_comprehension ms acc w
    = Run (Returns
             (fold_left
                (fun acc nv => Py.dict_set (JStr (fst nv)) (snd nv) acc)
                (filter (fun nv => negb (reserved (fst nv))) entries) acc))
          w [].
Proof.
  induction 1 as [| m [n v] ms entries [Hn Hv] _ IH]; intros acc w.
  - reflexivity.
  - cbn [metadata_comprehension filter fst snd] in *.
    rewrite Hn, bind_lift_returns, not_in_default_metadata_str.
    destruct (negb (reserved n)).
    + rewrite bind_lift_returns, Hv, bind_lift_returns.
      cbn [Py.hashable fold_left fst snd]. apply IH.
    + apply IH.
Qed.

Hypothesis str_validator_str : forall s, str_validator (JStr s) = Some s.

Lemma doc_and_score_hit x h (w : W) :
  is_hit x h ->
  doc_and_score str_validator x w = Run (Returns (document_of h)) w [].
Proof.
  intros (Ht & Hs & ms & Hm & He). unfold doc_and_score.
  rewrite Ht, bind_lift_returns, Hm, bind_lift_returns.
  cbn [Py.iter]. rewrite bind_lift_returns.
  unfold bind at 1.
  rewrite (metadata_comprehension_entries _ _ He). cbn.
  unfold new_Document. rewrite str_validator_str.
  unfold bind at 1. cbn. rewrite Hs. reflexivity.
Qed.

Lemma comprehension_hits xs hs (w : W) :
  Forall2 is_hit xs hs ->
  comprehension (doc_and_score str_validator) xs w
  = Run (Returns (map document_of hs)) w [].
Proof.
  induction 1 as [| x h xs hs Hx _ IH]; [reflexivity |].
  cbn [comprehension map]. unfold bind at 1.
  rewrite (doc_and_score_hit _ _ _ Hx). cbn.
  unfold bind. rewrite IH. reflexivity.
Qed.

End Documents.

Lemma abort_final_effect_free {W A} (m : M W A) (w : W) :
  effect_free m -> abort_final (m w).
Proof.
  intros H. destruct (H w) as [_ He]. unfold abort_final. rewrite He.
  destruct (result_of (m w)); [| left]; constructor.
Qed.

Lemma Forall2_map_r {A B} (P : A -> B -> Prop) (f : A -> B) (l : list A) :
  (forall a, P a (f a)) -> Forall2 P l (map f l).
Proof. intros H. induction l; cbn; constructor; auto. Qed.

(** *** Search *)

Section Search.

Variable W : Type.
Variable post : request -> W -> outcome * W.
Variable dumps : json -> string.
Variable str_validator : json -> option string.
Variable self : Vectara.

Abbreviation SearchWithScore :=
  (similarity_search_with_score post dumps str_validator self).
Abbreviation Search := (similarity_search post dumps str_validator self).
Abbreviation qry := (query_request dumps self).

(** What [similarity_search_with_score] does with a 200 response. *)
Abbreviation parse r :=
  (bind (response_json r) (fun result =>
   bind (lift (Py.getitem result "responseSet")) (fun response_set =>
   bind (lift (Py.getitem_int response_set 0)) (fun first =>
   bind (lift (Py.getitem first "response")) (fun responses =>
   bind (lift (Py.iter responses)) (fun xs =>
   comprehension (doc_and_score str_validator) xs)))))).

Lemma effect_free_parse r : effect_free (W := W) (parse r).
Proof.
  apply effect_free_bind.
  { unfold response_json. destruct (json_body r);
      [apply effect_free_ret | apply effect_free_raise]. }
  intros result.
  apply effect_free_bind; [apply effect_free_lift |]. intros response_set.
  apply effect_free_bind; [apply effect_free_lift |]. intros first.
  apply effect_free_bind; [apply effect_free_lift |]. intros responses.
  apply effect_free_bind; [apply effect_free_lift |]. intros xs.
  apply effect_free_comprehension. apply effect_free_doc_and_score.
Qed.

Lemma search_aborted query k alpha filter (w w' : W) why :
  post (qry query k alpha filter) w = (Aborted why, w') ->
  SearchWithScore query k alpha filter w
  = Run (Raises (RequestException why)) w'
        [Posted (qry query k alpha filter) (Aborted why)].
Proof.
  intros H. unfold similarity_search_with_score, bind at 1.
  now rewrite (session_post_aborted _ _ _ _ _ _ H).
Qed.

Lemma search_not_200 query k alpha filter (w w' : W) r :
  post (qry query k alpha filter) w = (Answered r, w') ->
  status_code r <> 200 ->
  SearchWithScore query k alpha filter w
  = Run (Returns []) w'
        [Posted (qry query k alpha filter) (Answered r);
         LoggedError (query_failed_msg r)].
Proof.
  intros H Hs. unfold similarity_search_with_score, bind at 1.
  rewrite (session_post_answered _ _ _ _ _ _ H). cbn.
  apply Z.eqb_neq in Hs. rewrite Hs. reflexivity.
Qed.

Lemma search_200 query k alpha filter (w w' : W) r :
  post (qry query k alpha filter) w = (Answered r, w') ->
  status_code r = 200 ->
  SearchWithScore query k alpha filter w
  = after [Posted (qry query k alpha filter) (Answered r)] (parse r w').
Proof.
  intros H Hs. unfold similarity_search_with_score, bind at 1.
  rewrite (session_post_answered _ _ _ _ _ _ H). cbn.
  apply Z.eqb_eq in Hs. rewrite Hs. reflexivity.
Qed.

Lemma search_carries query k alpha filter (w w' : W) r b xs :
  post (qry query k alpha filter) w = (Answered r, w') ->
  status_code r = 200 ->
  json_body r = Some b ->
  (exists response_set first,
      Py.getitem b "responseSet" = Returns response_set
      /\ Py.getitem_int response_set 0 = Returns first
      /\ Py.getitem first "response" = Returns (JArr xs)) ->
  SearchWithScore query k alpha filter w
  = after [Posted (qry query k alpha filter) (Answered r)]
          (comprehension (doc_and_score str_validator) xs w').
Proof.
  intros H Hs Hb (response_set & first & H1 & H2 & H3).
  rewrite (search_200 _ _ _ _ _ _ _ H Hs).
  unfold response_json. rewrite Hb.
  rewrite bind_ret, H1, bind_lift_returns, H2, bind_lift_returns,
    H3, bind_lift_returns.
  cbn [Py.iter]. now rewrite bind_lift_returns.
Qed.

Lemma search_hits query k alpha filter (w w' : W) r b hs :
  (forall s, str_validator (JStr s) = Some s) ->
  post (qry query k alpha filter) w = (Answered r, w') ->
  status_code r = 200 ->
  json_body r = Some b ->
  carries_hits b hs ->
  SearchWithScore query k alpha filter w
  = Run (Returns (map document_of hs)) w'
        [Posted (qry query k alpha filter) (Answered r)].
Proof.
  intros Hv H Hs Hb (response_set & first & xs & H1 & H2 & H3 & Hh).
  rewrite (search_carries _ _ _ _ _ _ _ _ xs H Hs Hb)
    by (exists response_set, first; auto).
  now rewrite (comprehension_hits _ Hv _ _ _ Hh).
Qed.

Lemma search_no_hits query k alpha filter (w w' : W) r b :
  post (qry query k alpha filter) w = (Answered r, w') ->
  status_code r = 200 ->
  json_body r = Some b ->
  carries_hits b [] ->
  SearchWithScore query k alpha filter w
  = Run (Returns []) w' [Posted (qry query k alpha filter) (Answered r)].
Proof.
  intros H Hs Hb (response_set & first & xs & H1 & H2 & H3 & Hh).
  inversion Hh; subst.
  rewrite (search_carries _ _ _ _ _ _ _ _ [] H Hs Hb)
    by (exists response_set, first; auto).
  reflexivity.
Qed.

Lemma search_requests query k alpha filter (w : W) :
  requests_of (events_of (SearchWithScore query k alpha filter w))
  = [qry query k alpha filter].
Proof.
  destruct (post (qry query k alpha filter) w) as [[r | why] w'] eqn:H.
  - destruct (Z.eq_dec (status_code r) 200) as [Hs | Hs].
    + rewrite (search_200 _ _ _ _ _ _ _ H Hs). cbn.
      destruct (effect_free_parse r w') as [_ He]. now rewrite He.
    + now rewrite (search_not_200 _ _ _ _ _ _ _ H Hs).
  - now rewrite (search_aborted _ _ _ _ _ _ _ H).
Qed.

Lemma abort_final_search query k alpha filter (w : W) :
  abort_final (SearchWithScore query k alpha filter w).
Proof.
  unfold similarity_search_with_score.
  apply abort_final_bind; [apply abort_final_post |]. intros r w1.
  destruct (negb (status_code r =? 200)).
  - apply abort_final_bind; [apply abort_final_logging |].
    intros. apply abort_final_ret.
  - apply (abort_final_effect_free (parse r)). apply effect_free_parse.
Qed.

Lemma similarity_search_discards query k alpha filter (w : W) :
  Search query k alpha filter w
  = discard_scores (SearchWithScore query k alpha filter w).
Proof.
  unfold similarity_search, discard_scores, bind.
  destruct (result_of (SearchWithScore query k alpha filter w));
    cbn; [now rewrite app_nil_r | reflexivity].
Qed.

End Search.

(** *** Document ids *)

Lemma hex_of_bytes_length (bs : list Z) :
  String.length (MD5.hex_of_bytes bs) = (2 * List.length bs)%nat.
Proof. induction bs as [| b bs IH]; cbn; [reflexivity | rewrite IH; lia]. Qed.

Lemma digest_length (data : list byte) : List.length (MD5.digest data) = 16%nat.
Proof. reflexivity. Qed.

Lemma bytes_of_word_range (w : Z) :
  Forall (fun b => 0 <= b < 256) (MD5.bytes_of_word w).
Proof. unfold MD5.bytes_of_word. repeat constructor; apply Z.mod_pos_bound; lia. Qed.

Lemma digest_range (data : list byte) :
  Forall (fun b => 0 <= b < 256) (MD5.digest data).
Proof.
  unfold MD5.digest. cbn zeta.
  repeat (apply Forall_app; split); apply bytes_of_word_range.
Qed.

Lemma doc_id_length (text : string) : String.length (doc_id_of text) = 32%nat.
Proof.
  unfold doc_id_of, MD5.hexdigest.
  now rewrite hex_of_bytes_length, digest_length.
Qed.

Lemma doc_id_hello_world :
  doc_id_of "hello world" = "5eb63bbbe01eeed093cb22bb8f5acdc3".
Proof. vm_compute. reflexivity. Qed.

(* ================================================================== *)
(** ** The contract of the adapter *)
(* ================================================================== *)

Section Contract.

Variable W : Type.
Variable post : request -> W -> outcome * W.
Variable dumps : json -> string.
Variable str_validator : json -> option string.
Variable self : Vectara.

Abbreviation Upsert := (_index_doc post dumps self).
Abbreviation Delete := (_delete_doc post dumps self).
Abbreviation AddTexts := (add_texts post dumps self).
Abbreviation SearchWithScore :=
  (similarity_search_with_score post dumps str_validator self).
Abbreviation Search := (similarity_search post dumps str_validator self).
Abbreviation idx := (index_request dumps self).
Abbreviation del := (delete_request dumps self).
Abbreviation qry := (query_request dumps self).

(** C1. The events of [AddTexts] are those of its items, one after the
    other. For every item, whatever world it starts from: its requests
    are the index request, possibly followed by the delete request,
    possibly followed by the same index request again, and nothing else
    (at most three round trips, in that order); if the initial [Upsert]
    returns true the item posts exactly the one index request; if it
    returns false the rest of the item is [Delete(id)] followed by one
    more [Upsert(id, text, metadata)], and once the delete call is
    answered (whatever its status) the requests of the item are exactly
    index, delete, index. *)
Theorem add_texts_conflict_round_trips texts metadatas (w : W) :
  events_of (AddTexts texts metadatas w)
  = List.concat (item_events post dumps self (map doc_id_of texts)
                             metadatas (Py.enumerate texts) w)
  /\ forall i doc metadata (w0 : W),
      nth_error texts i = Some doc ->
      metadata_at metadatas i = Returns metadata ->
      let doc_id := doc_id_of doc in
      let first := Upsert doc_id doc metadata w0 in
      let item :=
        add_text post dumps self (map doc_id_of texts) metadatas i doc w0 in
      let reqs := requests_of (events_of item) in
      (reqs = [idx doc_id doc metadata]
       \/ reqs = [idx doc_id doc metadata; del doc_id]
       \/ reqs = [idx doc_id doc metadata; del doc_id;
                  idx doc_id doc metadata])
      /\ (result_of first = Returns true -> reqs = [idx doc_id doc metadata])
      /\ (result_of first = Returns false ->
            item = after (events_of first)
                     ((Delete doc_id ;;
                       Upsert doc_id doc metadata ;;
                       ret tt)%py (world_of first))
            /\ forall r w2,
                post (del doc_id) (world_of first) = (Answered r, w2) ->
                reqs = [idx doc_id doc metadata; del doc_id;
                        idx doc_id doc metadata]).
Proof.
  split.
  { rewrite add_texts_unfold. cbn. apply loop_events. }
  intros i doc metadata w0 Ht Hm. cbn zeta.
  pose proof (list_getitem_map doc_id_of _ _ _ Ht) as Hi.
  split; [now apply add_text_requests |].
  rewrite (add_text_shape _ _ _ _ _ _ _ _ _ _ _ Hi Hm).
  pose proof (index_doc_requests _ post dumps self (doc_id_of doc) doc
                metadata w0) as Hq.
  split; intros Hr; rewrite Hr.
  - exact Hq.
  - split; [reflexivity |]. intros r w2 Hp. unfold after.
    cbn [events_of]. rewrite requests_of_app, Hq.
    destruct (replace_requests _ post dumps self (doc_id_of doc) doc metadata
                (world_of (Upsert (doc_id_of doc) doc metadata w0)))
      as [_ E].
    cbn zeta in E. now rewrite (E r w2 Hp).
Qed.

(** C6 (amended). Whenever [AddTexts] returns, it returns the ids derived
    from the texts, one per text in input order, whatever the remote
    service answered; and it does return them whenever [metadatas] is
    absent, empty or at least as long as [texts] and the remote service
    answers every call, index calls with a readable body, whatever the
    status codes and whether or not each upsert or delete succeeded. *)
Theorem add_texts_returns_ids texts metadatas (w : W) :
  (forall ids,
      result_of (AddTexts texts metadatas w) = Returns ids ->
      ids = map doc_id_of texts)
  /\ (covers metadatas (List.length texts) ->
      answers_readably post ->
      result_of (AddTexts texts metadatas w) = Returns (map doc_id_of texts)).
Proof.
  split.
  - intros ids. apply add_texts_result.
  - apply add_texts_returns.
Qed.

(** C10. If [metadatas] is absent or empty, every item is given the empty
    dict, exactly as if one empty dict had been passed per text. If it
    has at least as many entries as texts, every position has its own
    entry. If it is non-empty with fewer entries than texts, [AddTexts]
    behaves as [AddTexts] on the texts that have an entry followed by
    raising [IndexError]: it never returns, it posts nothing for the
    later texts, and when the remote service answers readably the error
    it raises is [IndexError]. *)
Theorem add_texts_metadatas_handling texts (w : W) :
  (forall metadatas,
      metadatas = None \/ metadatas = Some [] ->
      (forall i, metadata_at metadatas i = Returns [])
      /\ AddTexts texts metadatas w
         = AddTexts texts (Some (map (fun _ => []) texts)) w)
  /\ (forall ms i doc,
        (List.length texts <= List.length ms)%nat ->
        nth_error texts i = Some doc ->
        exists m, nth_error ms i = Some m
                  /\ metadata_at (Some ms) i = Returns m)
  /\ (forall ms,
        ms <> [] ->
        (List.length ms < List.length texts)%nat ->
        AddTexts texts (Some ms) w
        = (AddTexts (firstn (List.length ms) texts) (Some ms) ;;
           raise IndexError)%py w
        /\ (forall ids, result_of (AddTexts texts (Some ms) w) <> Returns ids)
        /\ (answers_readably post ->
            result_of (AddTexts texts (Some ms) w) = Raises IndexError)).
Proof.
  split; [| split].
  - intros metadatas Hm. split.
    + intros i. now destruct Hm; subst metadatas.
    + now apply add_texts_no_metadatas.
  - intros ms i doc Hle Ht.
    assert (Hi : (i < List.length ms)%nat).
    { assert (Hn : nth_error texts i <> None) by congruence.
      apply nth_error_Some in Hn. lia. }
    destruct (nth_error ms i) as [m |] eqn:E.
    + exists m. split; [reflexivity |].
      destruct ms as [| m0 ms']; [now destruct i |].
      cbn [metadata_at]. unfold Py.list_getitem. now rewrite E.
    + apply nth_error_None in E. lia.
  - intros ms Hne Hlt. rewrite (add_texts_short _ post dumps self _ _ w Hne Hlt).
    split; [reflexivity |]. split.
    + intros ids. unfold bind.
      now destruct (result_of (AddTexts (firstn (List.length ms) texts)
                                        (Some ms) w)).
    + intros Ha. unfold bind. rewrite add_texts_returns; trivial.
      destruct ms as [| m0 ms']; [easy |]. cbn [covers].
      rewrite length_firstn. lia.
Qed.

(** C9. Every index request carries a time limit of 30, every search
    request one of 10, and a delete request carries none. [Upsert],
    [Delete], [SearchWithScore] and [Search] post exactly one request per
    call, and [AddTexts] posts only such index and delete requests. A
    call that is aborted (by a timeout or a connection failure) is never
    followed by another: the operation raises at once. *)
Theorem time_limits_and_no_retry doc_id text metadata query k alpha filter
        texts metadatas (w : W) :
  (url (idx doc_id text metadata) = index_url
   /\ timeout (idx doc_id text metadata) = Some 30
   /\ url (qry query k alpha filter) = query_url
   /\ timeout (qry query k alpha filter) = Some 10
   /\ url (del doc_id) = delete_url
   /\ timeout (del doc_id) = None)
  /\ (requests_of (events_of (Upsert doc_id text metadata w))
      = [idx doc_id text metadata]
      /\ requests_of (events_of (Delete doc_id w)) = [del doc_id]
      /\ requests_of (events_of (SearchWithScore query k alpha filter w))
         = [qry query k alpha filter]
      /\ requests_of (events_of (Search query k alpha filter w))
         = [qry query k alpha filter])
  /\ Forall index_or_delete_call
            (requests_of (events_of (AddTexts texts metadatas w)))
  /\ (abort_final (Upsert doc_id text metadata w)
      /\ abort_final (Delete doc_id w)
      /\ abort_final (SearchWithScore query k alpha filter w)
      /\ abort_final (Search query k alpha filter w)
      /\ abort_final (AddTexts texts metadatas w)).
Proof.
  split; [now repeat split |]. split; [| split].
  - repeat split.
    + apply index_doc_requests.
    + apply delete_doc_requests.
    + apply search_requests.
    + rewrite similarity_search_discards. apply search_requests.
  - rewrite add_texts_unfold. apply loop_calls.
  - repeat split.
    + apply abort_final_index_doc.
    + apply abort_final_delete_doc.
    + apply abort_final_search.
    + unfold similarity_search. apply abort_final_bind;
        [apply abort_final_search | intros; apply abort_final_ret].
    + unfold add_texts. apply abort_final_bind;
        [apply abort_final_loop | intros; apply abort_final_ret].
Qed.

(** C4. For every query and every response to the search call whose
    status code is not 200, [SearchWithScore] raises nothing: it logs
    one error record and returns the empty list, the very value it
    returns for a 200 response that carries no hit. *)
Theorem search_non_200_returns_empty query k alpha filter (w w' : W) r :
  post (qry query k alpha filter) w = (Answered r, w') ->
  status_code r <> 200 ->
  SearchWithScore query k alpha filter w
  = Run (Returns []) w'
        [Posted (qry query k alpha filter) (Answered r);
         LoggedError (query_failed_msg r)]
  /\ forall (w0 w0' : W) r0 b,
      post (qry query k alpha filter) w0 = (Answered r0, w0') ->
      status_code r0 = 200 ->
      json_body r0 = Some b ->
      carries_hits b [] ->
      result_of (SearchWithScore query k alpha filter w0)
      = result_of (SearchWithScore query k alpha filter w).
Proof.
  intros H Hs. rewrite (search_not_200 _ _ _ _ _ _ _ _ _ _ _ _ H Hs).
  split; [reflexivity |]. intros w0 w0' r0 b H0 Hs0 Hb0 Hc.
  now rewrite (search_no_hits _ _ _ _ _ _ _ _ _ _ _ _ _ H0 Hs0 Hb0 Hc).
Qed.

(** C5. For every 200 response to the search call whose body carries the
    hits [hs], [SearchWithScore] returns one (Document, score) pair per
    hit, in the order of the response; the content of each document is
    the text of its hit and its score is the score of its hit; every
    entry of its metadata is an entry of the hit with the same value and
    a name other than lang, len and offset, every such name of the hit
    is present, and when the names of the hit are pairwise distinct the
    metadata is exactly the entries of the hit without the reserved
    ones, in order. *)
Theorem search_200_returns_hits query k alpha filter (w w' : W) r b hs :
  (forall s, str_validator (JStr s) = Some s) ->
  post (qry query k alpha filter) w = (Answered r, w') ->
  status_code r = 200 ->
  json_body r = Some b ->
  carries_hits b hs ->
  exists docs,
    SearchWithScore query k alpha filter w
    = Run (Returns docs) w' [Posted (qry query k alpha filter) (Answered r)]
    /\ Forall2
         (fun h ds =>
            page_content (fst ds) = hit_text h
            /\ snd ds = hit_score h
            /\ (forall n v,
                  Py.dict_get (JStr n) (metadata (fst ds)) = Some v ->
                  In (n, v) (hit_metadata h) /\ reserved n = false)
            /\ (forall n v,
                  In (n, v) (hit_metadata h) -> reserved n = false ->
                  exists v',
                    Py.dict_get (JStr n) (metadata (fst ds)) = Some v')
            /\ (NoDup (map fst (hit_metadata h)) ->
                metadata (fst ds) = stripped_metadata h))
         hs docs.
Proof.
  intros Hv H Hs Hb Hc. exists (map document_of hs). split.
  - now apply search_hits with (b := b).
  - apply Forall2_map_r. intros h. cbn [document_of fst snd page_content metadata].
    split; [reflexivity |]. split; [reflexivity |]. split; [| split].
    + intros n v Hget. now apply comprehended_metadata_sound.
    + apply comprehended_metadata_complete.
    + apply comprehended_metadata_distinct.
Qed.

(** C7. [Search] is [SearchWithScore] with the scores discarded: on every
    input and from every world the two post the same request, log the
    same records, leave the same world, raise the same exception if any,
    and [Search] returns the documents of the pairs, in the same
    order. *)
Theorem search_is_search_with_score_without_scores query k alpha filter
        (w : W) :
  Search query k alpha filter w
  = Search_spec post dumps str_validator self query k alpha filter w.
Proof. apply similarity_search_discards. Qed.

End Contract.

(** C2. The id of a text is a function of its UTF-8 encoding alone; the
    digest behind it is 16 bytes, that is 128 bits, printed as 32
    hexadecimal digits; the id of hello world is
    5eb63bbbe01eeed093cb22bb8f5acdc3, and that is what [AddTexts] returns
    for it whenever it returns; two calls of [AddTexts] on the same texts,
    on whatever stores, metadatas and worlds, return the same ids. *)
Theorem doc_id_deterministic :
  (forall t1 t2, encode_utf8 t1 = encode_utf8 t2 -> doc_id_of t1 = doc_id_of t2)
  /\ (forall t,
        List.length (MD5.digest (encode_utf8 t)) = 16%nat
        /\ Forall (fun b => 0 <= b < 256) (MD5.digest (encode_utf8 t))
        /\ String.length (doc_id_of t) = 32%nat)
  /\ doc_id_of "hello world" = "5eb63bbbe01eeed093cb22bb8f5acdc3"
  /\ (forall W (post : request -> W -> outcome * W) dumps self metadatas w,
        covers metadatas 1 ->
        answers_readably post ->
        result_of (add_texts post dumps self ["hello world"] metadatas w)
        = Returns ["5eb63bbbe01eeed093cb22bb8f5acdc3"])
  /\ (forall W1 (post1 : request -> W1 -> outcome * W1) dumps1 self1
             W2 (post2 : request -> W2 -> outcome * W2) dumps2 self2
             texts metadatas1 metadatas2 w1 w2 ids1 ids2,
        result_of (add_texts post1 dumps1 self1 texts metadatas1 w1)
        = Returns ids1 ->
        result_of (add_texts post2 dumps2 self2 texts metadatas2 w2)
        = Returns ids2 ->
        ids1 = ids2).
Proof.
  split; [| split; [| split; [| split]]].
  - intros t1 t2 H. unfold doc_id_of. now rewrite H.
  - intros t. split; [apply digest_length |].
    split; [apply digest_range | apply doc_id_length].
  - exact doc_id_hello_world.
  - intros W post dumps self metadatas w Hc Ha.
    rewrite add_texts_returns by assumption.
    cbn [map]. now rewrite doc_id_hello_world.
  - intros W1 post1 dumps1 self1 W2 post2 dumps2 self2 texts m1 m2 w1 w2
           ids1 ids2 H1 H2.
    apply add_texts_result in H1. apply add_texts_result in H2. congruence.
Qed.

(* ================================================================== *)
(** ** Worked examples *)
(* ================================================================== *)

Lemma alternating_answers_readably : answers_readably Alternating.post.
Proof.
  intros req n. unfold Alternating.post.
  eexists. eexists. split; [reflexivity |].
  intros _. now destruct (Nat.even n).
Qed.

(** C1 on a conflict: the first index call is answered 409, the delete
    call 404, and the index call is posted once more. *)
Lemma add_texts_conflict_round_trips_witness :
  let w := [Answered Scripted.conflict; Answered Scripted.not_found] in
  let id := doc_id_of "hello world" in
  requests_of
    (events_of
       (add_text Scripted.post Scripted.dumps Scripted.store
                 (map doc_id_of ["hello world"]) None 0 "hello world" w))
  = [ index_request Scripted.dumps Scripted.store id "hello world" [];
      delete_request Scripted.dumps Scripted.store id;
      index_request Scripted.dumps Scripted.store id "hello world" [] ].
Proof.
  intros w id.
  destruct (add_texts_conflict_round_trips
              Scripted.world Scripted.post Scripted.dumps Scripted.store
              ["hello world"] None w) as [_ H].
  destruct (H 0%nat "hello world" [] w eq_refl eq_refl) as (_ & _ & Hc).
  assert (Hf : result_of
                 (_index_doc Scripted.post Scripted.dumps Scripted.store
                             (doc_id_of "hello world") "hello world" [] w)
               = Returns false) by (vm_compute; reflexivity).
  destruct (Hc Hf) as [_ Hd].
  apply (Hd Scripted.not_found []). vm_compute. reflexivity.
Defined.

(** C2 on a service that reports a conflict first. *)
Lemma doc_id_deterministic_witness :
  result_of (add_texts Alternating.post Scripted.dumps Scripted.store
                       ["hello world"] None 0%nat)
  = Returns ["5eb63bbbe01eeed093cb22bb8f5acdc3"].
Proof.
  destruct doc_id_deterministic as (_ & _ & _ & H & _).
  apply H; [exact I | exact alternating_answers_readably].
Defined.

(** C3 (amended) on a conflict reported in the body of a 200 response. *)
Lemma index_doc_false_iff_conflict_witness :
  let r := Response 200 "OK" "{...}"
             (Some (JObj [("status",
                           JObj [("code", JStr "ALREADY_EXISTS")])])) in
  _index_doc Scripted.post Scripted.dumps Scripted.store "id" "text" []
             [Answered r]
  = Run (Returns false) []
        [Posted (index_request Scripted.dumps Scripted.store "id" "text" [])
                (Answered r)].
Proof.
  intros r.
  destruct (index_doc_false_iff_conflict
              Scripted.world Scripted.post Scripted.dumps Scripted.store
              "id" "text" [] [Answered r] [] r eq_refl) as [H _].
  exact (H eq_refl).
Defined.

(** C3 as stated fails: a 502 whose body is not JSON makes [Upsert] raise
    instead of returning true; a 409 whose body is not JSON makes it raise
    instead of returning false; and so does a JSON body whose status has
    no code. *)
Lemma index_doc_raises_on_unreadable_response :
  result_of (_index_doc Scripted.post Scripted.dumps Scripted.store
                        "id" "text" [] [Answered Scripted.bad_gateway])
  = Raises JSONDecodeError
  /\ result_of (_index_doc Scripted.post Scripted.dumps Scripted.store
                           "id" "text" []
                           [Answered (Response 409 "Conflict" "conflict" None)])
     = Raises JSONDecodeError
  /\ result_of (_index_doc Scripted.post Scripted.dumps Scripted.store
                           "id" "text" []
                           [Answered (Response 200 "OK" "{...}"
                                        (Some (JObj [("status", JObj [])])))])
     = Raises (KeyError (JStr "code")).
Proof. repeat split. Qed.

(** C4 on a 404 answer. *)
Lemma search_non_200_returns_empty_witness :
  similarity_search_with_score
    Scripted.post Scripted.dumps Scripted.str_validator Scripted.store
    "nato" 3 default_alpha None [Answered Scripted.not_found]
  = Run (Returns []) []
        [Posted (query_request Scripted.dumps Scripted.store
                               "nato" 3 default_alpha None)
                (Answered Scripted.not_found);
         LoggedError "Query failed (code 404, reason Not Found, details {})"].
Proof.
  refine (proj1 (search_non_200_returns_empty
                   Scripted.world Scripted.post Scripted.dumps
                   Scripted.str_validator Scripted.store
                   "nato" 3 default_alpha None
                   [Answered Scripted.not_found] [] Scripted.not_found
                   eq_refl _)).
  discriminate.
Defined.

Lemma nato_response_carries_hits :
  carries_hits (Scripted.search_body Scripted.nato_hits) Scripted.nato_hits.
Proof.
  unfold carries_hits. do 3 eexists. repeat split.
  repeat constructor; cbn; eexists; (split; [reflexivity |]);
    repeat constructor.
Qed.

(** C5 on a response with three hits. *)
Lemma search_200_returns_hits_witness :
  exists d1 d2 d3 s1 s2 s3,
    result_of
      (similarity_search_with_score
         Scripted.post Scripted.dumps Scripted.str_validator Scripted.store
         "nato" 3 default_alpha None [Answered Scripted.nato_response])
    = Returns [(d1, s1); (d2, s2); (d3, s3)]
    /\ page_content d1 = "NATO was founded in 1949."
    /\ metadata d1 = [(JStr "source", JStr "wiki")]
    /\ metadata d2 = [(JStr "page", JInt 2)]
    /\ metadata d3 = [].
Proof.
  destruct (search_200_returns_hits
              Scripted.world Scripted.post Scripted.dumps
              Scripted.str_validator Scripted.store
              "nato" 3 default_alpha None
              [Answered Scripted.nato_response] [] Scripted.nato_response
              (Scripted.search_body Scripted.nato_hits) Scripted.nato_hits
              (fun s => eq_refl) eq_refl eq_refl eq_refl
              nato_response_carries_hits)
    as (docs & Hrun & Hall).
  inversion Hall as [| h1 [d1 s1] hs1 ds1 (Hc1 & _ & _ & _ & Hm1) Hall1];
    subst.
  inversion Hall1 as [| h2 [d2 s2] hs2 ds2 (_ & _ & _ & _ & Hm2) Hall2];
    subst.
  inversion Hall2 as [| h3 [d3 s3] hs3 ds3 (_ & _ & _ & _ & Hm3) Hall3];
    subst.
  inversion Hall3; subst.
  exists d1, d2, d3, s1, s2, s3. rewrite Hrun. cbn in *.
  split; [reflexivity |]. split; [exact Hc1 |].
  split; [apply Hm1 | split; [apply Hm2 | apply Hm3]];
    repeat constructor; cbn; intuition discriminate.
Defined.

(** C6 (amended) on a service that answers conflicts and errors only. *)
Lemma add_texts_returns_ids_witness :
  result_of (add_texts Alternating.post Scripted.dumps Scripted.store
                       ["hello world"; ""] (Some [[]; [("k", JInt 1)]]) 0%nat)
  = Returns ["5eb63bbbe01eeed093cb22bb8f5acdc3";
             "d41d8cd98f00b204e9800998ecf8427e"].
Proof.
  refine (eq_trans
            (proj2 (add_texts_returns_ids
                      Alternating.world Alternating.post Scripted.dumps
                      Scripted.store ["hello world"; ""]
                      (Some [[]; [("k", JInt 1)]]) 0%nat)
                   _ alternating_answers_readably) _).
  - cbn. lia.
  - vm_compute. reflexivity.
Defined.

(** C6 as stated fails: with one metadata entry for two texts [AddTexts]
    raises although every call succeeded, and a failed upsert whose error
    body is not JSON makes it raise as well; in neither case is the list
    of ids returned. *)
Lemma add_texts_can_raise :
  result_of (add_texts Scripted.post Scripted.dumps Scripted.store
                       ["a"; "b"] (Some [[]]) [])
  = Raises IndexError
  /\ result_of (add_texts Scripted.post Scripted.dumps Scripted.store
                          ["a"] None [Answered Scripted.bad_gateway])
     = Raises JSONDecodeError.
Proof. split; vm_compute; reflexivity. Qed.

(** C8 on a 404 answer: false, one error record, one request. *)
Lemma delete_doc_false_iff_not_200_witness :
  result_of (_delete_doc Scripted.post Scripted.dumps Scripted.store "id"
                         [Answered Scripted.not_found])
  = Returns false
  /\ errors_of
       (events_of (_delete_doc Scripted.post Scripted.dumps Scripted.store
                               "id" [Answered Scripted.not_found]))
     = ["Delete request failed for doc_id = id with status code 404, reason Not Found, text {}"].
Proof.
  destruct (delete_doc_false_iff_not_200
              Scripted.world Scripted.post Scripted.dumps Scripted.store
              "id" [Answered Scripted.not_found]) as [_ H].
  destruct (H Scripted.not_found [] eq_refl) as (b & Hres & Hiff & Herr).
  destruct b.
  - discriminate Hres.
  - split; [exact Hres | exact Herr].
Defined.

(** C10 with one metadata entry for three texts: only the first text is
    indexed, then [IndexError]. *)
Lemma add_texts_metadatas_handling_witness :
  let run := add_texts Alternating.post Scripted.dumps Scripted.store
                       ["a"; "b"; "c"] (Some [[("k", JInt 1)]]) 0%nat in
  result_of run = Raises IndexError
  /\ run = bind (add_texts Alternating.post Scripted.dumps Scripted.store
                           ["a"] (Some [[("k", JInt 1)]]))
                (fun _ => raise IndexError) 0%nat.
Proof.
  intros run.
  destruct (add_texts_metadatas_handling
              Alternating.world Alternating.post Scripted.dumps Scripted.store
              ["a"; "b"; "c"] 0%nat) as (_ & _ & H).
  destruct (H [[("k", JInt 1)]]) as (Heq & _ & Hraise).
  - discriminate.
  - cbn. lia.
  - split; [exact (Hraise alternating_answers_readably) | exact Heq].
Defined.

(* ================================================================== *)
(** ** Further properties of the code *)
(* ================================================================== *)

(** *** Construction *)

Lemma init_store env a b c :
  fst (__init__ env a b c)
  = {| _vectara_customer_id := or_environ a env "VECTARA_CUSTOMER_ID";
       _vectara_corpus_id := or_environ b env "VECTARA_CORPUS_ID";
       _vectara_api_key := or_environ c env "VECTARA_API_KEY" |}.
Proof.
  unfold __init__. cbn zeta.
  destruct (or_environ a env "VECTARA_CUSTOMER_ID"),
           (or_environ b env "VECTARA_CORPUS_ID"),
           (or_environ c env "VECTARA_API_KEY"); reflexivity.
Qed.

Lemma or_environ_explicit s env name :
  s <> "" -> or_environ (Some s) env name = Some s.
Proof.
  intros H. unfold or_environ. destruct (String.eqb s "") eqn:E; [| reflexivity].
  apply String.eqb_eq in E. contradiction.
Qed.

(** X1. A credential passed to the constructor as a non-empty string is
    used as it is, whatever the environment holds; one passed as [None]
    or as the empty string is read from the environment variable of the
    credential, so that an empty argument and an absent one build the
    same adapter. *)
Theorem init_credentials_resolution (env : environ) (a b c : option string) :
  let self := fst (__init__ env a b c) in
  (forall s, a = Some s -> s <> "" -> _vectara_customer_id self = Some s)
  /\ (forall s, b = Some s -> s <> "" -> _vectara_corpus_id self = Some s)
  /\ (forall s, c = Some s -> s <> "" -> _vectara_api_key self = Some s)
  /\ (a = None \/ a = Some "" ->
      _vectara_customer_id self = env "VECTARA_CUSTOMER_ID")
  /\ (b = None \/ b = Some "" ->
      _vectara_corpus_id self = env "VECTARA_CORPUS_ID")
  /\ (c = None \/ c = Some "" ->
      _vectara_api_key self = env "VECTARA_API_KEY")
  /\ __init__ env (Some "") b c = __init__ env None b c
  /\ __init__ env a (Some "") c = __init__ env a None c
  /\ __init__ env a b (Some "") = __init__ env a b None.
Proof.
  cbn zeta. rewrite init_store. cbn [_vectara_customer_id _vectara_corpus_id
                                      _vectara_api_key].
  repeat split.
  - intros s -> Hs. now apply or_environ_explicit.
  - intros s -> Hs. now apply or_environ_explicit.
  - intros s -> Hs. now apply or_environ_explicit.
  - now intros [-> | ->].
  - now intros [-> | ->].
  - now intros [-> | ->].
Qed.

(** X2. The constructor logs exactly one record: the warning about missing
    credentials exactly when one of the three credentials of the adapter
    it built is [None], and otherwise a debug record naming the corpus
    id. A credential that resolves to the empty string counts as
    present. *)
Theorem init_warns_iff_missing (env : environ) (a b c : option string) :
  let self := fst (__init__ env a b c) in
  let records := snd (__init__ env a b c) in
  (records = [Warning missing_credentials_msg]
   <-> (_vectara_customer_id self = None
        \/ _vectara_corpus_id self = None
        \/ _vectara_api_key self = None))
  /\ (forall customer corpus key,
        _vectara_customer_id self = Some customer ->
        _vectara_corpus_id self = Some corpus ->
        _vectara_api_key self = Some key ->
        records = [Debug ("Using corpus id " ++ corpus)%string])
  /\ List.length records = 1%nat.
Proof.
  cbn zeta. rewrite init_store. cbn [_vectara_customer_id _vectara_corpus_id
                                      _vectara_api_key].
  unfold __init__. cbn zeta.
  destruct (or_environ a env "VECTARA_CUSTOMER_ID") as [x |],
           (or_environ b env "VECTARA_CORPUS_ID") as [y |],
           (or_environ c env "VECTARA_API_KEY") as [z |]; cbn;
    (split; [split; [intros H; try discriminate H; auto
                    | intros [H | [H | H]]; try discriminate H; reflexivity]
            | split; [intros ? ? ? H1 H2 H3;
                      try discriminate; now inversion H2
                     | reflexivity]]).
Qed.

(** *** More on [add_texts] *)

Lemma errors_of_app evs1 evs2 :
  errors_of (evs1 ++ evs2) = errors_of evs1 ++ errors_of evs2.
Proof.
  induction evs1 as [| [r o | m] evs1 IH]; cbn; now rewrite ?IH.
Qed.

Section MoreAddTexts.

Variable W : Type.
Variable post : request -> W -> outcome * W.
Variable dumps : json -> string.
Variable self : Vectara.

Abbreviation upsert := (_index_doc post dumps self).
Abbreviation delete := (_delete_doc post dumps self).
Abbreviation idx := (index_request dumps self).
Abbreviation del := (delete_request dumps self).
Abbreviation body := (add_text post dumps self).
Abbreviation loop := (add_texts_loop post dumps self).
Abbreviation AddTexts := (add_texts post dumps self).

Lemma add_text_requests_forall (P : request -> Prop) ids mds i doc w :
  (forall doc_id text metadata, P (idx doc_id text metadata)) ->
  (forall doc_id, P (del doc_id)) ->
  Forall P (requests_of (events_of (body ids mds i doc w))).
Proof.
  intros Hi Hd.
  destruct (Py.list_getitem ids i) as [doc_id | e] eqn:H1.
  2:{ unfold add_text. rewrite H1. constructor. }
  destruct (metadata_at mds i) as [metadata | e] eqn:H2.
  2:{ unfold add_text. rewrite H1, H2. constructor. }
  destruct (add_text_requests _ post dumps self _ _ _ doc _ _ w H1 H2)
    as [E | [E | E]]; cbn zeta in E; rewrite E; repeat constructor; auto.
Qed.

Lemma loop_requests_forall (P : request -> Prop) ids mds items w :
  (forall doc_id text metadata, P (idx doc_id text metadata)) ->
  (forall doc_id, P (del doc_id)) ->
  Forall P (requests_of (events_of (loop ids mds items w))).
Proof.
  intros Hi Hd. revert w.
  induction items as [| [i doc] rest IH]; intros w; [constructor |].
  cbn [add_texts_loop]. unfold bind.
  destruct (result_of (body ids mds i doc w)); cbn.
  - rewrite requests_of_app. apply Forall_app. split;
      [now apply add_text_requests_forall | apply IH].
  - now apply add_text_requests_forall.
Qed.

Lemma add_text_requests_bound ids mds i doc w :
  (List.length (requests_of (events_of (body ids mds i doc w))) <= 3)%nat.
Proof.
  destruct (Py.list_getitem ids i) as [doc_id | e] eqn:H1.
  2:{ unfold add_text. rewrite H1. cbn. lia. }
  destruct (metadata_at mds i) as [metadata | e] eqn:H2.
  2:{ unfold add_text. rewrite H1, H2. cbn. lia. }
  destruct (add_text_requests _ post dumps self _ _ _ doc _ _ w H1 H2)
    as [E | [E | E]]; cbn zeta in E; rewrite E; cbn; lia.
Qed.

Lemma loop_requests_bound ids mds items w :
  (List.length (requests_of (events_of (loop ids mds items w)))
   <= 3 * List.length items)%nat.
Proof.
  revert w. induction items as [| [i doc] rest IH]; intros w; [cbn; lia |].
  cbn [add_texts_loop]. unfold bind.
  pose proof (add_text_requests_bound ids mds i doc w) as Hb.
  destruct (result_of (body ids mds i doc w)); cbn [events_of List.length].
  - rewrite requests_of_app, length_app.
    specialize (IH (world_of (body ids mds i doc w))). lia.
  - lia.
Qed.

Lemma index_doc_no_errors doc_id text metadata w :
  errors_of (events_of (upsert doc_id text metadata w)) = [].
Proof.
  destruct (index_doc_events _ post dumps self doc_id text metadata w) as [o E].
  now rewrite E.
Qed.

Lemma delete_doc_errors doc_id w :
  Forall (fun msg => exists r,
              msg = delete_failed_msg doc_id r /\ status_code r <> 200)
         (errors_of (events_of (delete doc_id w))).
Proof.
  destruct (post (del doc_id) w) as [[r | why] w'] eqn:H.
  - rewrite (delete_doc_answered _ post dumps self doc_id _ _ _ H).
    destruct (status_code r =? 200) eqn:E; cbn; constructor; [| constructor].
    exists r. split; [reflexivity | now apply Z.eqb_neq].
  - rewrite (delete_doc_aborted _ post dumps self doc_id _ _ _ H). constructor.
Qed.

Lemma add_text_errors ids mds i doc w :
  Forall (fun msg => exists doc_id r,
              In doc_id ids
              /\ msg = delete_failed_msg doc_id r /\ status_code r <> 200)
         (errors_of (events_of (body ids mds i doc w))).
Proof.
  destruct (Py.list_getitem ids i) as [doc_id | e] eqn:H1.
  2:{ unfold add_text. rewrite H1. constructor. }
  destruct (metadata_at mds i) as [metadata | e] eqn:H2.
  2:{ unfold add_text. rewrite H1, H2. constructor. }
  assert (Hin : In doc_id ids).
  { unfold Py.list_getitem in H1.
    destruct (nth_error ids i) as [x |] eqn:E; [| discriminate].
    inversion H1; subst. now apply nth_error_In with (n := i). }
  rewrite (add_text_shape _ post dumps self _ _ _ doc _ _ w H1 H2).
  pose proof (index_doc_no_errors doc_id doc metadata w) as Hn.
  destruct (result_of (upsert doc_id doc metadata w)) as [[|] | e];
    cbn [events_of]; try (rewrite Hn; constructor).
  unfold after. cbn [events_of]. rewrite errors_of_app, Hn. cbn [app].
  unfold bind at 1.
  pose proof (delete_doc_errors doc_id
                (world_of (upsert doc_id doc metadata w))) as Hd.
  assert (Hd' : Forall (fun msg => exists doc_id r,
                            In doc_id ids
                            /\ msg = delete_failed_msg doc_id r
                            /\ status_code r <> 200)
                       (errors_of (events_of
                          (delete doc_id
                             (world_of (upsert doc_id doc metadata w)))))).
  { eapply Forall_impl; [| exact Hd]. cbn. intros msg (r & Hm & Hs).
    now exists doc_id, r. }
  destruct (result_of (delete doc_id _)); cbn [events_of]; [| exact Hd'].
  rewrite errors_of_app. apply Forall_app. split; [exact Hd' |].
  rewrite events_bind_ret, index_doc_no_errors. constructor.
Qed.

Lemma loop_errors ids mds items w :
  Forall (fun msg => exists doc_id r,
              In doc_id ids
              /\ msg = delete_failed_msg doc_id r /\ status_code r <> 200)
         (errors_of (events_of (loop ids mds items w))).
Proof.
  revert w. induction items as [| [i doc] rest IH]; intros w; [constructor |].
  cbn [add_texts_loop]. unfold bind.
  destruct (result_of (body ids mds i doc w)); cbn [events_of].
  - rewrite errors_of_app. apply Forall_app. split;
      [apply add_text_errors | apply IH].
  - apply add_text_errors.
Qed.

End MoreAddTexts.

Section AddTextsComposition.

Variable W : Type.
Variable post : request -> W -> outcome * W.
Variable dumps : json -> string.
Variable self : Vectara.

Abbreviation upsert := (_index_doc post dumps self).
Abbreviation idx := (index_request dumps self).
Abbreviation body := (add_text post dumps self).
Abbreviation loop := (add_texts_loop post dumps self).
Abbreviation AddTexts := (add_texts post dumps self).

(** The request of item [(i, doc)]. *)
Abbreviation item_request mds it :=
  (idx (doc_id_of (snd it)) (snd it) (metadata_for mds (fst it))).

Lemma add_text_without_conflict ids mds i doc doc_id metadata w :
  answers_without_conflict post ->
  Py.list_getitem ids i = Returns doc_id ->
  metadata_at mds i = Returns metadata ->
  exists r w',
    body ids mds i doc w
    = Run (Returns tt) w' [Posted (idx doc_id doc metadata) (Answered r)].
Proof.
  intros Ha H1 H2.
  destruct (Ha (idx doc_id doc metadata) w) as (r & w' & Hp & Hr & Hc).
  exists r, w'. rewrite (add_text_shape _ post dumps self _ _ _ doc _ _ w H1 H2).
  rewrite (index_doc_readable _ post dumps self _ _ _ _ _ _ Hp Hr), Hc.
  reflexivity.
Qed.

Lemma loop_without_conflict ids mds items w :
  answers_without_conflict post ->
  (forall it, In it items ->
     Py.list_getitem ids (fst it) = Returns (doc_id_of (snd it))
     /\ exists metadata, metadata_at mds (fst it) = Returns metadata) ->
  result_of (loop ids mds items w) = Returns tt
  /\ requests_of (events_of (loop ids mds items w))
     = map (fun it => item_request mds it) items
  /\ errors_of (events_of (loop ids mds items w)) = [].
Proof.
  intros Ha. revert w.
  induction items as [| [i doc] rest IH]; intros w H; [now repeat split |].
  destruct (H (i, doc) (or_introl eq_refl)) as [H1 [metadata H2]].
  cbn [fst snd] in H1, H2.
  destruct (add_text_without_conflict _ _ _ doc _ _ w Ha H1 H2)
    as (r & w' & E).
  destruct (IH w') as (Hres & Hreq & Herr).
  { intros it Hin. apply H. now right. }
  cbn [add_texts_loop map]. unfold bind. rewrite E.
  cbn [result_of world_of events_of].
  rewrite Hres, requests_of_app, errors_of_app, Hreq, Herr.
  unfold metadata_for. cbn [fst snd]. rewrite H2. now repeat split.
Qed.

(** The loop looks at [ids] and [metadatas] only at the positions of its
    items, so two runs whose items differ by a shift of positions agree
    when the subscripts do. *)
Lemma loop_shift ids ids' mds mds' (docs : list string) s s' w :
  (forall j, (j < List.length docs)%nat ->
     Py.list_getitem ids (s + j) = Py.list_getitem ids' (s' + j)
     /\ metadata_at mds (s + j) = metadata_at mds' (s' + j)) ->
  loop ids mds (combine (seq s (List.length docs)) docs) w
  = loop ids' mds' (combine (seq s' (List.length docs)) docs) w.
Proof.
  revert s s' w. induction docs as [| doc docs IH]; intros s s' w H;
    [reflexivity |].
  cbn [List.length seq combine add_texts_loop].
  destruct (H 0%nat) as [H1 H2]; [cbn; lia |].
  rewrite !Nat.add_0_r in H1, H2.
  assert (E : body ids mds s doc w = body ids' mds' s' doc w)
    by (unfold add_text; now rewrite H1, H2).
  unfold bind. rewrite E.
  destruct (result_of (body ids' mds' s' doc w)); [| reflexivity].
  rewrite (IH (Datatypes.S s) (Datatypes.S s')); [reflexivity |].
  intros j Hj. specialize (H (Datatypes.S j)).
  rewrite !Nat.add_succ_r in H. cbn [Nat.add]. apply H. cbn. lia.
Qed.

End AddTextsComposition.

Lemma enumerate_length {A} (l : list A) :
  List.length (Py.enumerate l) = List.length l.
Proof.
  unfold Py.enumerate. rewrite length_combine, length_seq. apply Nat.min_id.
Qed.

Section AddTextsFurther.

Variable W : Type.
Variable post : request -> W -> outcome * W.
Variable dumps : json -> string.
Variable str_validator : json -> option string.
Variable self : Vectara.

Abbreviation Upsert := (_index_doc post dumps self).
Abbreviation Delete := (_delete_doc post dumps self).
Abbreviation AddTexts := (add_texts post dumps self).
Abbreviation SearchWithScore :=
  (similarity_search_with_score post dumps str_validator self).
Abbreviation idx := (index_request dumps self).
Abbreviation del := (delete_request dumps self).
Abbreviation qry := (query_request dumps self).
Abbreviation body := (add_text post dumps self).
Abbreviation loop := (add_texts_loop post dumps self).

Lemma add_text_returns_requests ids mds i doc w :
  result_of (body ids mds i doc w) = Returns tt ->
  (1 <= List.length (requests_of (events_of (body ids mds i doc w))))%nat.
Proof.
  destruct (Py.list_getitem ids i) as [doc_id | e] eqn:H1.
  2:{ unfold add_text. rewrite H1. discriminate. }
  destruct (metadata_at mds i) as [metadata | e] eqn:H2.
  2:{ unfold add_text. rewrite H1, H2. discriminate. }
  intros _.
  destruct (add_text_requests _ post dumps self _ _ _ doc _ _ w H1 H2)
    as [E | [E | E]]; cbn zeta in E; rewrite E; cbn; lia.
Qed.

Lemma loop_returns_requests ids mds items w :
  result_of (loop ids mds items w) = Returns tt ->
  (List.length items
   <= List.length (requests_of (events_of (loop ids mds items w))))%nat.
Proof.
  revert w. induction items as [| [i doc] rest IH]; intros w; [cbn; lia |].
  cbn [add_texts_loop]. unfold bind.
  pose proof (add_text_returns_requests ids mds i doc w) as Hb.
  destruct (result_of (body ids mds i doc w)) as [[] | e];
    cbn [result_of events_of List.length]; [| discriminate].
  intros Hr. rewrite requests_of_app, length_app.
  specialize (IH _ Hr). specialize (Hb eq_refl). lia.
Qed.

(** X3. Every request the adapter posts, in any run of [AddTexts] or of
    [SearchWithScore], carries the headers of [_get_post_headers]: the
    API key, the customer id and the JSON content type of this adapter.
    Index and delete calls ask for certificate verification explicitly;
    the search call leaves it to the session. *)
Theorem requests_carry_post_headers texts metadatas query k alpha filter
        (w : W) :
  Forall (fun req => headers req = _get_post_headers self
                     /\ verify req = Some true)
         (requests_of (events_of (AddTexts texts metadatas w)))
  /\ Forall (fun req => headers req = _get_post_headers self
                        /\ verify req = None)
            (requests_of (events_of (SearchWithScore query k alpha filter w)))
  /\ In ("x-api-key", _vectara_api_key self) (_get_post_headers self)
  /\ In ("customer-id", _vectara_customer_id self) (_get_post_headers self)
  /\ In ("Content-Type", Some "application/json") (_get_post_headers self).
Proof.
  split; [| split].
  - rewrite add_texts_unfold. cbn [events_of].
    apply loop_requests_forall; intros; now split.
  - rewrite search_requests. repeat constructor.
  - cbn. tauto.
Qed.

(** X4. Metadata entries beyond the number of texts are never looked at:
    with at least as many entries as texts, appending further entries
    changes nothing in the run; in particular with no text at all nothing
    is posted and the empty list is returned, whatever [metadatas] is. *)
Theorem add_texts_ignores_surplus_metadatas texts ms extra (w : W) :
  (List.length texts <= List.length ms)%nat ->
  add_texts post dumps self texts (Some (ms ++ extra)) w
  = add_texts post dumps self texts (Some ms) w
  /\ forall metadatas,
      add_texts post dumps self [] metadatas w = Run (Returns []) w [].
Proof.
  intros Hle. split; [| reflexivity].
  rewrite !add_texts_unfold. cbn zeta.
  rewrite (loop_ext _ post dumps self (map doc_id_of texts) (map doc_id_of texts)
             (Some (ms ++ extra)) (Some ms)); [reflexivity |].
  intros i doc Hin. split; [reflexivity |].
  apply enumerate_bound in Hin.
  destruct ms as [| m ms']; [cbn in Hle; lia |].
  cbn [app metadata_at]. unfold Py.list_getitem.
  change (m :: ms' ++ extra) with ((m :: ms') ++ extra).
  rewrite nth_error_app1 by lia. reflexivity.
Qed.

(** X5. A run of [AddTexts] posts at most three requests per text; a run
    that returns has posted at least one per text. *)
Theorem add_texts_request_count texts metadatas (w : W) :
  let n := List.length
             (requests_of (events_of (AddTexts texts metadatas w))) in
  (n <= 3 * List.length texts)%nat
  /\ (forall ids,
        result_of (AddTexts texts metadatas w) = Returns ids ->
        (List.length texts <= n)%nat).
Proof.
  cbn zeta. rewrite add_texts_unfold. cbn [events_of result_of]. split.
  - rewrite <- (enumerate_length texts). apply loop_requests_bound.
  - intros ids Hr. rewrite <- (enumerate_length texts) at 1.
    apply loop_returns_requests.
    destruct (result_of (loop (map doc_id_of texts) metadatas
                              (Py.enumerate texts) w)) as [[] | e];
      [reflexivity | discriminate].
Qed.

(** X6. On a remote service that answers every call readably and reports
    no conflict, [AddTexts] with usable [metadatas] returns the ids after
    posting exactly one index request per text, in input order, each with
    the id of its text and the metadata at its position; it posts no
    delete request and logs nothing. *)
Theorem add_texts_without_conflict texts metadatas (w : W) :
  answers_without_conflict post ->
  covers metadatas (List.length texts) ->
  result_of (AddTexts texts metadatas w) = Returns (map doc_id_of texts)
  /\ requests_of (events_of (AddTexts texts metadatas w))
     = map (fun it => idx (doc_id_of (snd it)) (snd it)
                          (metadata_for metadatas (fst it)))
           (Py.enumerate texts)
  /\ errors_of (events_of (AddTexts texts metadatas w)) = [].
Proof.
  intros Ha Hc. rewrite add_texts_unfold. cbn [result_of events_of].
  destruct (loop_without_conflict _ post dumps self (map doc_id_of texts)
              metadatas (Py.enumerate texts) w Ha) as (Hres & Hreq & Herr).
  { intros [i doc] Hin. cbn [fst snd]. split.
    - apply list_getitem_map. now apply enumerate_nth.
    - apply covers_metadata_at with (n := List.length texts); trivial.
      now apply enumerate_bound in Hin. }
  rewrite Hres. now repeat split.
Qed.

(** X8. [Upsert] never logs, whatever the response: a failed index call
    leaves no record. Every error record of a run of [AddTexts] is the
    record of a delete call that was answered with a status other than
    200, for the id of one of the texts. *)
Theorem add_texts_logs_only_delete_failures texts metadatas doc_id text
        metadata (w : W) :
  errors_of (events_of (Upsert doc_id text metadata w)) = []
  /\ Forall (fun msg => exists id r,
                 In id (map doc_id_of texts)
                 /\ msg = delete_failed_msg id r
                 /\ status_code r <> 200)
            (errors_of (events_of (AddTexts texts metadatas w))).
Proof.
  split; [apply index_doc_no_errors |].
  rewrite add_texts_unfold. cbn [events_of]. apply loop_errors.
Qed.

End AddTextsFurther.

Section AddTextsBatches.

Variable W : Type.
Variable post : request -> W -> outcome * W.
Variable dumps : json -> string.
Variable self : Vectara.

Abbreviation AddTexts := (add_texts post dumps self).
Abbreviation loop := (add_texts_loop post dumps self).

Lemma add_texts_app_gen a b mds mds_a mds_b (w : W) :
  (forall i, (i < List.length a)%nat ->
     metadata_at mds i = metadata_at mds_a i) ->
  (forall j, (j < List.length b)%nat ->
     metadata_at mds (List.length a + j) = metadata_at mds_b j) ->
  AddTexts (a ++ b) mds w
  = bind (AddTexts a mds_a)
         (fun ids_a =>
            bind (AddTexts b mds_b) (fun ids_b => ret (ids_a ++ ids_b))) w.
Proof.
  intros Ha Hb.
  assert (La : forall w0,
             loop (map doc_id_of (a ++ b)) mds (Py.enumerate a) w0
             = loop (map doc_id_of a) mds_a (Py.enumerate a) w0).
  { intros w0. apply (loop_shift _ post dumps self _ _ _ _ a 0 0).
    intros j Hj. cbn [Nat.add]. split; [| now apply Ha].
    unfold Py.list_getitem. rewrite map_app, nth_error_app1;
      [reflexivity | now rewrite length_map]. }
  assert (Lb : forall w0,
             loop (map doc_id_of (a ++ b)) mds
                  (combine (seq (List.length a) (List.length b)) b) w0
             = loop (map doc_id_of b) mds_b (Py.enumerate b) w0).
  { intros w0. apply (loop_shift _ post dumps self _ _ _ _ b (List.length a) 0).
    intros j Hj. cbn [Nat.add]. split; [| now apply Hb].
    unfold Py.list_getitem. rewrite map_app, nth_error_app2;
      rewrite length_map; [| lia].
    now replace (List.length a + j - List.length a)%nat with j by lia. }
  rewrite add_texts_unfold. cbn zeta.
  rewrite enumerate_app, loop_app.
  unfold bind. rewrite La, !add_texts_unfold. cbn zeta.
  cbn [result_of world_of events_of].
  destruct (result_of (loop (map doc_id_of a) mds_a (Py.enumerate a) w));
    cbn [result_of world_of events_of]; [| reflexivity].
  rewrite Lb.
  destruct (result_of (loop (map doc_id_of b) mds_b (Py.enumerate b) _));
    cbn [result_of world_of events_of].
  - now rewrite map_app, app_nil_r.
  - reflexivity.
Qed.

(** X7. Adding a batch is adding its parts one after the other. Without
    metadatas, [AddTexts] on [a ++ b] runs exactly as [AddTexts] on [a]
    followed, if that returns, by [AddTexts] on [b] from the world it
    left, and returns the two id lists joined; if the first part raises,
    nothing of the second is posted. The same holds with metadatas split
    at the length of [a], both parts non-empty. *)
Theorem add_texts_app a b (w : W) :
  AddTexts (a ++ b) None w
  = bind (AddTexts a None)
         (fun ids_a =>
            bind (AddTexts b None) (fun ids_b => ret (ids_a ++ ids_b))) w
  /\ forall ms_a ms_b,
      List.length ms_a = List.length a -> ms_a <> [] -> ms_b <> [] ->
      AddTexts (a ++ b) (Some (ms_a ++ ms_b)) w
      = bind (AddTexts a (Some ms_a))
             (fun ids_a =>
                bind (AddTexts b (Some ms_b))
                     (fun ids_b => ret (ids_a ++ ids_b))) w.
Proof.
  split.
  - now apply add_texts_app_gen.
  - intros ms_a ms_b Hlen Ha Hb. apply add_texts_app_gen.
    + intros i Hi. destruct ms_a as [| m ms_a']; [easy |].
      cbn [app metadata_at]. unfold Py.list_getitem.
      change (m :: ms_a' ++ ms_b) with ((m :: ms_a') ++ ms_b).
      rewrite nth_error_app1 by lia. reflexivity.
    + intros j Hj. destruct ms_a as [| m ms_a']; [easy |].
      destruct ms_b as [| m' ms_b']; [easy |].
      cbn [app metadata_at]. unfold Py.list_getitem.
      change (m :: ms_a' ++ m' :: ms_b') with ((m :: ms_a') ++ m' :: ms_b').
      rewrite nth_error_app2 by lia.
      now replace (List.length a + j - List.length (m :: ms_a'))%nat
        with j by lia.
Qed.

End AddTextsBatches.

(** *** More on search *)

Lemma key_eqb_str_l (n : string) (k : json) :
  Py.key_eqb (JStr n) k = true -> k = JStr n.
Proof.
  destruct k as [| b | z | f | s | l | o]; cbn; try discriminate.
  intros H. apply String.eqb_eq in H. now subst.
Qed.

Lemma dict_get_set_any (n : string) (k v : json) (d : Py.dict) :
  Py.dict_get (JStr n) (Py.dict_set k v d)
  = if Py.key_eqb k (JStr n) then Some v else Py.dict_get (JStr n) d.
Proof.
  induction d as [| [k' x] d IH]; cbn; [reflexivity |].
  destruct (Py.key_eqb k' k) eqn:E; cbn.
  - destruct (Py.key_eqb k' (JStr n)) eqn:E'.
    + apply key_eqb_str in E'. subst k'.
      apply key_eqb_str_l in E. subst k. cbn. now rewrite String.eqb_refl.
    + destruct (Py.key_eqb k (JStr n)) eqn:E''; [| reflexivity].
      apply key_eqb_str in E''. subst k. now rewrite E in E'.
  - rewrite IH. destruct (Py.key_eqb k' (JStr n)) eqn:E'; [| reflexivity].
    apply key_eqb_str in E'. subst k'.
    destruct (Py.key_eqb k (JStr n)) eqn:E''; [| reflexivity].
    apply key_eqb_str in E''. subst k. cbn in E.
    now rewrite String.eqb_refl in E.
Qed.

Lemma find_app_none {A} (f : A -> bool) (l l' : list A) :
  (forall y, In y l -> f y = false) -> find f (l ++ l') = find f l'.
Proof.
  induction l as [| y l IH]; cbn; intros H; [reflexivity |].
  rewrite (H y (or_introl eq_refl)). apply IH. intros. apply H. now right.
Qed.

Lemma comprehended_metadata_last (h : hit) l1 n v l2 :
  hit_metadata h = l1 ++ (n, v) :: l2 ->
  ~ In n (map fst l2) ->
  reserved n = false ->
  Py.dict_get (JStr n) (comprehended_metadata h) = Some v.
Proof.
  intros Hm Hn Hr. unfold comprehended_metadata. rewrite dict_get_fold.
  unfold kept_entries. rewrite Hm, filter_app. cbn [filter fst].
  rewrite Hr. cbn [negb]. rewrite rev_app_distr. cbn [rev].
  rewrite <- app_assoc. rewrite find_app_none.
  - cbn. now rewrite String.eqb_refl.
  - intros [m x] Hin. cbn. apply in_rev in Hin. apply filter_In in Hin.
    destruct Hin as [Hin _]. destruct (String.eqb m n) eqn:E; [| reflexivity].
    apply String.eqb_eq in E. subst m. elim Hn.
    apply in_map_iff. now exists (n, x).
Qed.

Section Inversion.

Context {W : Type}.

Lemma bind_returns_inv {A B} (m : M W A) (k : A -> M W B) w b :
  result_of (bind m k w) = Returns b ->
  exists a, result_of (m w) = Returns a
            /\ result_of (k a (world_of (m w))) = Returns b.
Proof.
  unfold bind. destruct (result_of (m w)) as [a | e]; cbn; [| discriminate].
  intros H. now exists a.
Qed.

Lemma lift_returns_inv {A} (r : pyresult A) (w : W) a :
  result_of (lift r w) = Returns a -> r = Returns a.
Proof. now destruct r. Qed.

Lemma comprehension_forall {A B} (f : A -> M W B) (P : B -> Prop) xs :
  (forall x w y, result_of (f x w) = Returns y -> P y) ->
  forall w ys,
    result_of (comprehension f xs w) = Returns ys -> Forall P ys.
Proof.
  intros Hf. induction xs as [| x xs IH]; intros w ys; cbn [comprehension].
  - intros H. inversion H. constructor.
  - intros H. apply bind_returns_inv in H. destruct H as (y & Hy & H).
    apply bind_returns_inv in H. destruct H as (ys' & Hys & H).
    inversion H; subst. constructor; [now apply (Hf x w) | now apply (IH _ _ Hys)].
Qed.

Lemma metadata_comprehension_reserved ms acc (w : W) d n :
  result_of (metadata_comprehension ms acc w) = Returns d ->
  reserved n = true ->
  Py.dict_get (JStr n) d = Py.dict_get (JStr n) acc.
Proof.
  intros H Hr. revert acc w H.
  induction ms as [| m ms IH]; intros acc w H; cbn [metadata_comprehension] in H.
  - now inversion H.
  - apply bind_returns_inv in H. destruct H as (name & Hname & H).
    destruct (not_in_default_metadata name) eqn:Hk; [| now apply (IH _ _ H)].
    apply bind_returns_inv in H. destruct H as (key & Hkey & H).
    apply bind_returns_inv in H. destruct H as (value & Hvalue & H).
    destruct (Py.hashable key); [| discriminate].
    apply IH in H. rewrite H, dict_get_set_any.
    destruct (Py.key_eqb key (JStr n)) eqn:E; [| reflexivity].
    apply key_eqb_str in E. subst key.
    apply lift_returns_inv in Hname, Hkey.
    assert (name = JStr n) by congruence. subst name.
    rewrite not_in_default_metadata_str, Hr in Hk. discriminate.
Qed.

End Inversion.

Section SearchFurther.

Variable W : Type.
Variable post : request -> W -> outcome * W.
Variable dumps : json -> string.
Variable str_validator : json -> option string.
Variable self : Vectara.

Abbreviation SearchWithScore :=
  (similarity_search_with_score post dumps str_validator self).
Abbreviation Search := (similarity_search post dumps str_validator self).
Abbreviation qry := (query_request dumps self).

Lemma doc_and_score_reserved x (w : W) doc score n :
  result_of (doc_and_score str_validator x w) = Returns (doc, score) ->
  reserved n = true ->
  Py.dict_get (JStr n) (metadata doc) = None.
Proof.
  intros H Hr. unfold doc_and_score in H.
  apply bind_returns_inv in H. destruct H as (content & _ & H).
  apply bind_returns_inv in H. destruct H as (ms & _ & H).
  apply bind_returns_inv in H. destruct H as (ms' & _ & H).
  apply bind_returns_inv in H. destruct H as (md & Hmd & H).
  apply bind_returns_inv in H. destruct H as (doc' & Hdoc & H).
  apply bind_returns_inv in H. destruct H as (score' & _ & H).
  inversion H; subst doc' score'.
  unfold new_Document in Hdoc.
  destruct (str_validator content); [| discriminate].
  inversion Hdoc; subst doc. cbn [metadata].
  now rewrite (metadata_comprehension_reserved _ _ _ _ n Hmd Hr).
Qed.

Lemma comprehension_raises xs1 hs1 x xs2 e (w : W) :
  (forall s, str_validator (JStr s) = Some s) ->
  Forall2 is_hit xs1 hs1 ->
  result_of (doc_and_score str_validator x w) = Raises e ->
  comprehension (doc_and_score str_validator) (xs1 ++ x :: xs2) w
  = Run (Raises e) w [].
Proof.
  intros Hv Hh He. induction Hh as [| y h ys hs Hy _ IH]; cbn [app comprehension].
  - unfold bind.
    destruct (effect_free_doc_and_score str_validator x w) as [Hw Hev].
    rewrite He. cbn. now rewrite Hw, Hev.
  - unfold bind at 1. rewrite (doc_and_score_hit _ Hv _ _ _ Hy). cbn.
    unfold bind. now rewrite IH.
Qed.

(** X9. A 200 response is parsed without any check: when its body is not
    JSON, [SearchWithScore] raises [JSONDecodeError]; when the body has no
    [responseSet] it raises the error of that subscript, [KeyError] for an
    object without the key; when [responseSet] is an empty list it raises
    [IndexError]. In each case the one request has been posted and
    nothing is logged. *)
Theorem search_200_malformed_raises query k alpha filter (w w' : W) r :
  post (qry query k alpha filter) w = (Answered r, w') ->
  status_code r = 200 ->
  (json_body r = None ->
   SearchWithScore query k alpha filter w
   = Run (Raises JSONDecodeError) w'
         [Posted (qry query k alpha filter) (Answered r)])
  /\ (forall b e,
        json_body r = Some b ->
        Py.getitem b "responseSet" = Raises e ->
        SearchWithScore query k alpha filter w
        = Run (Raises e) w'
              [Posted (qry query k alpha filter) (Answered r)])
  /\ (forall o,
        json_body r = Some (JObj o) ->
        Py.lookup "responseSet" o = None ->
        SearchWithScore query k alpha filter w
        = Run (Raises (KeyError (JStr "responseSet"))) w'
              [Posted (qry query k alpha filter) (Answered r)])
  /\ (forall b,
        json_body r = Some b ->
        Py.getitem b "responseSet" = Returns (JArr []) ->
        SearchWithScore query k alpha filter w
        = Run (Raises IndexError) w'
              [Posted (qry query k alpha filter) (Answered r)]).
Proof.
  intros H Hs. rewrite (search_200 _ post dumps str_validator self _ _ _ _ _ _ _ H Hs).
  unfold response_json. repeat split.
  - intros Hb. now rewrite Hb.
  - intros b e Hb He. rewrite Hb, bind_ret, He. reflexivity.
  - intros o Hb Ho. rewrite Hb, bind_ret. cbn [Py.getitem]. now rewrite Ho.
  - intros b Hb He. rewrite Hb, bind_ret, He. reflexivity.
Qed.

(** X10. Only the first response set of a 200 response is read: two
    responses whose bodies agree on the first element of [responseSet]
    make [SearchWithScore] return the same pairs or raise the same
    error, whatever else the bodies hold. *)
Theorem search_reads_first_response_set query k alpha filter
        (w1 w2 w' : W) r1 r2 b1 b2 rs1 rs2 :
  post (qry query k alpha filter) w1 = (Answered r1, w') ->
  post (qry query k alpha filter) w2 = (Answered r2, w') ->
  status_code r1 = 200 -> status_code r2 = 200 ->
  json_body r1 = Some b1 -> json_body r2 = Some b2 ->
  Py.getitem b1 "responseSet" = Returns rs1 ->
  Py.getitem b2 "responseSet" = Returns rs2 ->
  Py.getitem_int rs1 0 = Py.getitem_int rs2 0 ->
  result_of (SearchWithScore query k alpha filter w1)
  = result_of (SearchWithScore query k alpha filter w2).
Proof.
  intros H1 H2 Hs1 Hs2 Hb1 Hb2 Hr1 Hr2 Heq.
  rewrite (search_200 _ post dumps str_validator self _ _ _ _ _ _ _ H1 Hs1).
  rewrite (search_200 _ post dumps str_validator self _ _ _ _ _ _ _ H2 Hs2).
  unfold response_json, after. cbn [result_of].
  rewrite Hb1, Hb2, !bind_ret, Hr1, Hr2, !bind_lift_returns, Heq.
  reflexivity.
Qed.

(** X11. The number of documents is the number of hits of the response,
    whatever [k] was asked for: the adapter passes [k] to the remote
    service and never truncates what comes back. *)
Theorem search_does_not_truncate query k alpha filter (w w' : W) r b hs :
  (forall s, str_validator (JStr s) = Some s) ->
  post (qry query k alpha filter) w = (Answered r, w') ->
  status_code r = 200 ->
  json_body r = Some b ->
  carries_hits b hs ->
  exists docs,
    result_of (SearchWithScore query k alpha filter w) = Returns docs
    /\ List.length docs = List.length hs.
Proof.
  intros Hv H Hs Hb Hc. exists (map document_of hs).
  rewrite (search_hits _ post dumps str_validator self _ _ _ _ _ _ _ _ _
             Hv H Hs Hb Hc).
  split; [reflexivity | apply length_map].
Qed.

(** X12. The result is all or nothing: when the element built for one hit
    raises (a hit without a score, for instance), [SearchWithScore]
    raises that error and returns none of the documents built for the
    hits before it. *)
Theorem search_all_or_nothing query k alpha filter (w w' : W) r b
        response_set first xs1 hs1 x xs2 e :
  (forall s, str_validator (JStr s) = Some s) ->
  post (qry query k alpha filter) w = (Answered r, w') ->
  status_code r = 200 ->
  json_body r = Some b ->
  Py.getitem b "responseSet" = Returns response_set ->
  Py.getitem_int response_set 0 = Returns first ->
  Py.getitem first "response" = Returns (JArr (xs1 ++ x :: xs2)) ->
  Forall2 is_hit xs1 hs1 ->
  result_of (doc_and_score str_validator x w') = Raises e ->
  SearchWithScore query k alpha filter w
  = Run (Raises e) w' [Posted (qry query k alpha filter) (Answered r)].
Proof.
  intros Hv H Hs Hb H1 H2 H3 Hh He.
  rewrite (search_carries _ post dumps str_validator self _ _ _ _ _ _ _ _
             (xs1 ++ x :: xs2) H Hs Hb)
    by (exists response_set, first; auto).
  now rewrite (comprehension_raises _ _ _ _ _ _ Hv Hh He).
Qed.

(** X13. No document returned by [SearchWithScore] has a metadata key
    lang, len or offset, for any response whatever, well formed or
    not. *)
Theorem search_never_returns_reserved_keys query k alpha filter (w : W) docs :
  result_of (SearchWithScore query k alpha filter w) = Returns docs ->
  Forall (fun ds =>
            forall n, reserved n = true ->
                      Py.dict_get (JStr n) (metadata (fst ds)) = None)
         docs.
Proof.
  unfold similarity_search_with_score. intros H.
  apply bind_returns_inv in H. destruct H as (r & _ & H).
  destruct (negb (status_code r =? 200)).
  - apply bind_returns_inv in H. destruct H as (u & _ & H).
    inversion H. constructor.
  - apply bind_returns_inv in H. destruct H as (result & _ & H).
    apply bind_returns_inv in H. destruct H as (response_set & _ & H).
    apply bind_returns_inv in H. destruct H as (first & _ & H).
    apply bind_returns_inv in H. destruct H as (responses & _ & H).
    apply bind_returns_inv in H. destruct H as (xs & _ & H).
    eapply comprehension_forall; [| exact H].
    intros x w0 [doc score] Hx n Hn. cbn [fst].
    now apply (doc_and_score_reserved _ _ _ _ _ Hx).
Qed.

(** X14. When a hit lists a metadata name more than once, the document
    keeps the value of the last entry of that name. *)
Theorem search_last_metadata_value_wins query k alpha filter (w w' : W)
        r b hs :
  (forall s, str_validator (JStr s) = Some s) ->
  post (qry query k alpha filter) w = (Answered r, w') ->
  status_code r = 200 ->
  json_body r = Some b ->
  carries_hits b hs ->
  exists docs,
    result_of (SearchWithScore query k alpha filter w) = Returns docs
    /\ Forall2
         (fun h ds =>
            forall l1 n v l2,
              hit_metadata h = l1 ++ (n, v) :: l2 ->
              ~ In n (map fst l2) ->
              reserved n = false ->
              Py.dict_get (JStr n) (metadata (fst ds)) = Some v)
         hs docs.
Proof.
  intros Hv H Hs Hb Hc. exists (map document_of hs).
  rewrite (search_hits _ post dumps str_validator self _ _ _ _ _ _ _ _ _
             Hv H Hs Hb Hc).
  split; [reflexivity |]. apply Forall2_map_r. intros h l1 n v l2.
  cbn [document_of fst metadata]. apply comprehended_metadata_last.
Qed.

(** X15. [Search] inherits the behaviour of [SearchWithScore]: on a
    response other than 200 it logs one error and returns the empty
    list; on a 200 response that carries hits it returns one document
    per hit, in order, the content of each being the text of its hit. *)
Theorem search_documents query k alpha filter (w w' : W) r :
  post (qry query k alpha filter) w = (Answered r, w') ->
  (status_code r <> 200 ->
   Search query k alpha filter w
   = Run (Returns []) w'
         [Posted (qry query k alpha filter) (Answered r);
          LoggedError (query_failed_msg r)])
  /\ (forall b hs,
        (forall s, str_validator (JStr s) = Some s) ->
        status_code r = 200 ->
        json_body r = Some b ->
        carries_hits b hs ->
        exists docs,
          Search query k alpha filter w
          = Run (Returns docs) w'
                [Posted (qry query k alpha filter) (Answered r)]
          /\ map page_content docs = map hit_text hs).
Proof.
  intros H. split.
  - intros Hs. rewrite similarity_search_discards.
    now rewrite (search_not_200 _ post dumps str_validator self _ _ _ _ _ _ _
                   H Hs).
  - intros b hs Hv Hs Hb Hc. exists (map fst (map document_of hs)).
    rewrite similarity_search_discards.
    rewrite (search_hits _ post dumps str_validator self _ _ _ _ _ _ _ _ _
               Hv H Hs Hb Hc).
    split; [reflexivity |]. rewrite !map_map. reflexivity.
Qed.

End SearchFurther.

(** *** The format of document ids *)

Lemma hex_digit_lower (n : Z) :
  0 <= n < 16 -> is_lower_hex (MD5.hex_digit n) = true.
Proof.
  intros H. unfold MD5.hex_digit.
  remember (Z.to_nat n) as m eqn:Hm.
  assert (Hlt : (m < 16)%nat) by lia. clear Hm H.
  do 16 (destruct m as [| m]; [reflexivity |]). lia.
Qed.

Lemma hex_of_bytes_lower (bs : list Z) :
  Forall (fun b => 0 <= b < 256) bs ->
  forallb is_lower_hex (list_ascii_of_string (MD5.hex_of_bytes bs)) = true.
Proof.
  induction 1 as [| b bs Hb _ IH]; [reflexivity |].
  cbn [MD5.hex_of_bytes list_ascii_of_string forallb].
  rewrite IH, !hex_digit_lower; [reflexivity | |].
  - apply Z.mod_pos_bound. lia.
  - split; [apply Z.div_pos; lia | apply Z.div_lt_upper_bound; lia].
Qed.

(** X16. Every document id is made of exactly 32 characters, each one a
    lowercase hexadecimal digit, whatever the text (the empty text
    included). *)
Theorem doc_id_is_lower_hex (text : string) :
  String.length (doc_id_of text) = 32%nat
  /\ forallb is_lower_hex (list_ascii_of_string (doc_id_of text)) = true.
Proof.
  split; [apply doc_id_length |].
  unfold doc_id_of, MD5.hexdigest. apply hex_of_bytes_lower, digest_range.
Qed.

(** *** [from_texts], the retriever and the web service *)

Section Wrappers.

Variable W : Type.
Variable post : request -> W -> outcome * W.
Variable dumps : json -> string.

Lemma add_texts_short_never_returns self texts ms (w : W) ids :
  ms <> [] -> (List.length ms < List.length texts)%nat ->
  result_of (add_texts post dumps self texts (Some ms) w) <> Returns ids.
Proof.
  intros Hne Hlt. rewrite (add_texts_short _ post dumps self _ _ w Hne Hlt).
  unfold bind.
  now destruct (result_of (add_texts post dumps self
                             (firstn (List.length ms) texts) (Some ms) w)).
Qed.

(** X17. [from_texts] builds the adapter as the constructor does, logs
    what the constructor logs, and runs [add_texts] on it: it posts the
    same requests and raises what [add_texts] raises, and returns the
    adapter only if [add_texts] returns. With a non-empty [metadatas]
    shorter than [texts] no adapter is ever returned. The [embedding]
    argument has no influence. *)
Theorem from_texts_runs_add_texts {E} (env : environ) texts
        (embedding : option E) metadatas a b c (w : W) :
  let store := fst (__init__ env a b c) in
  let added := add_texts post dumps store texts metadatas w in
  let made :=
    snd (from_texts post dumps env texts embedding metadatas a b c) w in
  fst (from_texts post dumps env texts embedding metadatas a b c)
  = snd (__init__ env a b c)
  /\ result_of made
     = match result_of added with
       | Returns _ => Returns store
       | Raises e => Raises e
       end
  /\ world_of made = world_of added
  /\ events_of made = events_of added
  /\ (forall ms, metadatas = Some ms -> ms <> [] ->
                 (List.length ms < List.length texts)%nat ->
                 forall v, result_of made <> Returns v)
  /\ (forall E' (embedding' : option E'),
        from_texts post dumps env texts embedding' metadatas a b c
        = from_texts post dumps env texts embedding metadatas a b c).
Proof.
  cbn zeta. unfold from_texts.
  destruct (__init__ env a b c) as [store records]. cbn [fst snd].
  assert (E0 : forall r : run W (list string),
             add_texts post dumps store texts metadatas w = r ->
             bind (add_texts post dumps store texts metadatas)
                  (fun _ => ret store) w
             = Run (match result_of r with
                    | Returns _ => Returns store
                    | Raises e => Raises e
                    end) (world_of r) (events_of r)).
  { intros r <-. unfold bind.
    destruct (result_of (add_texts post dumps store texts metadatas w));
      cbn; [now rewrite app_nil_r | reflexivity]. }
  rewrite (E0 _ eq_refl). cbn [result_of world_of events_of].
  repeat split.
  intros ms -> Hne Hlt v.
  pose proof (add_texts_short_never_returns store texts ms w) as Hn.
  destruct (result_of (add_texts post dumps store texts (Some ms) w)) as [ids | e];
    [now elim (Hn ids) | discriminate].
Qed.

(** X18. The retriever's [add_texts] is the store's [add_texts] with the
    ids dropped: it posts the same requests, logs the same records,
    leaves the same world and raises the same error, and when the store
    returns the ids it returns [None]. *)
Theorem retriever_add_texts_drops_ids (retriever : VectaraRetriever) texts
        metadatas (w : W) :
  let added := add_texts post dumps (vectorstore retriever) texts metadatas w in
  retriever_add_texts post dumps retriever texts metadatas w
  = Run (match result_of added with
         | Returns _ => Returns tt
         | Raises e => Raises e
         end) (world_of added) (events_of added).
Proof.
  cbn zeta. unfold retriever_add_texts, bind.
  destruct (result_of (add_texts post dumps (vectorstore retriever) texts
                                 metadatas w));
    cbn; [now rewrite app_nil_r | reflexivity].
Qed.

(** X19. The handler [reply] never raises: when the query returns, its
    answer is the response; when the query raises, whatever the error,
    the response is the fixed error message and the error is lost. In
    both cases the effects are those of the query. *)
Theorem reply_never_raises (index_query : string -> M W json)
        (item : Main.Item) (w : W) :
  let asked := index_query (Main.query item) w in
  result_of (Main.reply index_query item w)
  = Returns (match result_of asked with
             | Returns response => response
             | Raises _ => Main.error_message
             end)
  /\ world_of (Main.reply index_query item w) = world_of asked
  /\ events_of (Main.reply index_query item w) = events_of asked.
Proof.
  cbn zeta. unfold Main.reply, try_except, bind, after.
  destruct (result_of (index_query (Main.query item) w)); cbn;
    now rewrite ?app_nil_r.
Qed.

End Wrappers.

Section RetryOutcome.

Variable W : Type.
Variable post : request -> W -> outcome * W.
Variable dumps : json -> string.
Variable self : Vectara.

(** X20. After a conflict the loop body looks neither at what [Delete]
    returned nor at what the second [Upsert] returned: whenever both
    return, the item is done and the loop goes on, even if the delete
    failed or the retry reported a conflict again. *)
Theorem add_text_ignores_retry_outcome ids metadatas i doc doc_id metadata
        (w w1 w2 w3 : W) evs1 evs2 evs3 (deleted retried : bool) :
  Py.list_getitem ids i = Returns doc_id ->
  metadata_at metadatas i = Returns metadata ->
  _index_doc post dumps self doc_id doc metadata w
  = Run (Returns false) w1 evs1 ->
  _delete_doc post dumps self doc_id w1 = Run (Returns deleted) w2 evs2 ->
  _index_doc post dumps self doc_id doc metadata w2
  = Run (Returns retried) w3 evs3 ->
  add_text post dumps self ids metadatas i doc w
  = Run (Returns tt) w3 (evs1 ++ evs2 ++ evs3).
Proof.
  intros H1 H2 Hf Hd Hr.
  rewrite (add_text_shape _ post dumps self _ _ _ doc _ _ w H1 H2), Hf.
  cbn [result_of world_of events_of]. unfold after, bind.
  rewrite Hd. cbn [result_of world_of events_of]. rewrite Hr.
  cbn [result_of world_of events_of]. now rewrite app_nil_r.
Qed.

End RetryOutcome.

(* ================================================================== *)
(** ** Further worked examples *)
(* ================================================================== *)

Lemma calm_answers_without_conflict : answers_without_conflict Calm.post.
Proof. intros req w. exists Scripted.ok, tt. now repeat split. Qed.

Lemma entries_carried l : Forall2 is_entry (map Scripted.entry_json l) l.
Proof. induction l as [| [n v] l IH]; constructor; [now split | exact IH]. Qed.

Lemma search_body_carries_hits hs :
  carries_hits (Scripted.search_body hs) hs.
Proof.
  unfold carries_hits. do 3 eexists. repeat split.
  induction hs as [| h hs IH]; constructor; [| exact IH].
  repeat split. eexists. split; [reflexivity | apply entries_carried].
Qed.

Lemma init_credentials_resolution_witness :
  let env := fun _ : string => Some "from-env" in
  let self := fst (__init__ env (Some "cust") None (Some "")) in
  _vectara_customer_id self = Some "cust"
  /\ _vectara_corpus_id self = Some "from-env"
  /\ _vectara_api_key self = Some "from-env".
Proof.
  intros env self.
  destruct (init_credentials_resolution env (Some "cust") None (Some ""))
    as (Ha & _ & _ & _ & Hb & Hc & _).
  split; [apply (Ha "cust" eq_refl); discriminate |].
  split; [apply Hb; now left | apply Hc; now right].
Defined.

Lemma init_warns_iff_missing_witness :
  snd (__init__ (fun _ => None) (Some "cust") None (Some "key"))
  = [Warning missing_credentials_msg]
  /\ snd (__init__ (fun _ => Some "") (Some "cust") None (Some "key"))
     = [Debug "Using corpus id "].
Proof.
  split.
  - apply (proj1 (init_warns_iff_missing (fun _ => None)
                    (Some "cust") None (Some "key"))).
    right. now left.
  - apply (proj1 (proj2 (init_warns_iff_missing (fun _ => Some "")
                           (Some "cust") None (Some "key")))
             "cust" "" "key"); reflexivity.
Defined.

Lemma add_texts_ignores_surplus_metadatas_witness :
  add_texts Calm.post Scripted.dumps Scripted.store ["a"]
            (Some ([[]] ++ [[("k", JInt 1)]])) tt
  = add_texts Calm.post Scripted.dumps Scripted.store ["a"] (Some [[]]) tt.
Proof.
  apply (add_texts_ignores_surplus_metadatas
           Calm.world Calm.post Scripted.dumps Scripted.store
           ["a"] [[]] [[("k", JInt 1)]] tt).
  cbn. lia.
Defined.

Lemma add_texts_request_count_witness :
  (2 <= List.length
          (requests_of
             (events_of (add_texts Alternating.post Scripted.dumps
                                   Scripted.store ["a"; "b"] None 0%nat))))%nat.
Proof.
  apply (proj2 (add_texts_request_count
                  Alternating.world Alternating.post Scripted.dumps
                  Scripted.store ["a"; "b"] None 0%nat)
               (map doc_id_of ["a"; "b"])).
  vm_compute. reflexivity.
Defined.

Lemma add_texts_without_conflict_witness :
  requests_of
    (events_of (add_texts Calm.post Scripted.dumps Scripted.store
                          ["a"; "b"] (Some [[]; [("k", JInt 1)]]) tt))
  = [ index_request Scripted.dumps Scripted.store (doc_id_of "a") "a" [];
      index_request Scripted.dumps Scripted.store (doc_id_of "b") "b"
                    [("k", JInt 1)] ].
Proof.
  refine (proj1 (proj2 (add_texts_without_conflict
                          Calm.world Calm.post Scripted.dumps Scripted.store
                          ["a"; "b"] (Some [[]; [("k", JInt 1)]]) tt
                          calm_answers_without_conflict _))).
  cbn. lia.
Defined.

Lemma add_texts_app_witness :
  add_texts Alternating.post Scripted.dumps Scripted.store (["a"] ++ ["b"])
            (Some ([[]] ++ [[("k", JInt 1)]])) 0%nat
  = bind (add_texts Alternating.post Scripted.dumps Scripted.store ["a"]
                    (Some [[]]))
         (fun ids_a =>
            bind (add_texts Alternating.post Scripted.dumps Scripted.store
                            ["b"] (Some [[("k", JInt 1)]]))
                 (fun ids_b => ret (ids_a ++ ids_b))) 0%nat.
Proof.
  apply (proj2 (add_texts_app Alternating.world Alternating.post
                              Scripted.dumps Scripted.store ["a"] ["b"] 0%nat)
               [[]] [[("k", JInt 1)]]).
  - reflexivity.
  - discriminate.
  - discriminate.
Defined.

Lemma search_200_malformed_raises_witness :
  let r := Response 200 "OK" "<html></html>" None in
  similarity_search_with_score
    Scripted.post Scripted.dumps Scripted.str_validator Scripted.store
    "nato" 3 default_alpha None [Answered r]
  = Run (Raises JSONDecodeError) []
        [Posted (query_request Scripted.dumps Scripted.store
                               "nato" 3 default_alpha None)
                (Answered r)].
Proof.
  intros r.
  apply (proj1 (search_200_malformed_raises
                  Scripted.world Scripted.post Scripted.dumps
                  Scripted.str_validator Scripted.store
                  "nato" 3 default_alpha None [Answered r] [] r
                  eq_refl eq_refl)).
  reflexivity.
Defined.

Lemma search_reads_first_response_set_witness :
  let first := JObj [("response", JArr (map Scripted.hit_json Scripted.nato_hits))] in
  let other := JObj [("response", JArr [JStr "not a hit"])] in
  let r1 := Response 200 "OK" "{...}"
              (Some (JObj [("responseSet", JArr [first])])) in
  let r2 := Response 200 "OK" "{...}"
              (Some (JObj [("status", JArr []);
                           ("responseSet", JArr [first; other])])) in
  result_of (similarity_search_with_score
               Scripted.post Scripted.dumps Scripted.str_validator
               Scripted.store "nato" 3 default_alpha None [Answered r1])
  = result_of (similarity_search_with_score
                 Scripted.post Scripted.dumps Scripted.str_validator
                 Scripted.store "nato" 3 default_alpha None [Answered r2]).
Proof.
  intros first other r1 r2.
  apply (search_reads_first_response_set
           Scripted.world Scripted.post Scripted.dumps
           Scripted.str_validator Scripted.store "nato" 3 default_alpha None
           [Answered r1] [Answered r2] [] r1 r2
           (JObj [("responseSet", JArr [first])])
           (JObj [("status", JArr []); ("responseSet", JArr [first; other])])
           (JArr [first]) (JArr [first; other]));
    reflexivity.
Defined.

Lemma search_does_not_truncate_witness :
  exists docs,
    result_of (similarity_search_with_score
                 Scripted.post Scripted.dumps Scripted.str_validator
                 Scripted.store "nato" 1 default_alpha None
                 [Answered Scripted.nato_response])
    = Returns docs
    /\ List.length docs = 3%nat.
Proof.
  apply (search_does_not_truncate
           Scripted.world Scripted.post Scripted.dumps
           Scripted.str_validator Scripted.store "nato" 1 default_alpha None
           [Answered Scripted.nato_response] [] Scripted.nato_response
           (Scripted.search_body Scripted.nato_hits) Scripted.nato_hits
           (fun s => eq_refl) eq_refl eq_refl eq_refl
           (search_body_carries_hits Scripted.nato_hits)).
Defined.

Lemma search_all_or_nothing_witness :
  let good := Hit "NATO was founded in 1949." (JInt 1) [] in
  let bad := JObj [("text", JStr "no score here"); ("metadata", JArr [])] in
  let first := JObj [("response", JArr ([Scripted.hit_json good] ++ bad :: []))] in
  let r := Response 200 "OK" "{...}"
             (Some (JObj [("responseSet", JArr [first])])) in
  similarity_search_with_score
    Scripted.post Scripted.dumps Scripted.str_validator Scripted.store
    "nato" 3 default_alpha None [Answered r]
  = Run (Raises (KeyError (JStr "score"))) []
        [Posted (query_request Scripted.dumps Scripted.store
                               "nato" 3 default_alpha None)
                (Answered r)].
Proof.
  intros good bad first r.
  apply (search_all_or_nothing
           Scripted.world Scripted.post Scripted.dumps
           Scripted.str_validator Scripted.store "nato" 3 default_alpha None
           [Answered r] [] r (JObj [("responseSet", JArr [first])])
           (JArr [first]) first [Scripted.hit_json good] [good] bad []
           (KeyError (JStr "score")));
    try reflexivity.
  repeat constructor. exists []. split; [reflexivity | constructor].
Defined.

Lemma search_never_returns_reserved_keys_witness :
  Forall (fun ds =>
            forall n, reserved n = true ->
                      Py.dict_get (JStr n) (metadata (fst ds)) = None)
         (map document_of Scripted.nato_hits).
Proof.
  apply (search_never_returns_reserved_keys
           Scripted.world Scripted.post Scripted.dumps
           Scripted.str_validator Scripted.store "nato" 3 default_alpha None
           [Answered Scripted.nato_response]).
  vm_compute. reflexivity.
Defined.

Lemma search_last_metadata_value_wins_witness :
  let h := Hit "twice" (JInt 1)
               [("page", JInt 1); ("lang", JStr "eng"); ("page", JInt 2)] in
  let r := Response 200 "OK" "{...}" (Some (Scripted.search_body [h])) in
  exists doc score,
    result_of (similarity_search_with_score
                 Scripted.post Scripted.dumps Scripted.str_validator
                 Scripted.store "nato" 3 default_alpha None [Answered r])
    = Returns [(doc, score)]
    /\ Py.dict_get (JStr "page") (metadata doc) = Some (JInt 2).
Proof.
  intros h r.
  destruct (search_last_metadata_value_wins
              Scripted.world Scripted.post Scripted.dumps
              Scripted.str_validator Scripted.store "nato" 3 default_alpha None
              [Answered r] [] r (Scripted.search_body [h]) [h]
              (fun s => eq_refl) eq_refl eq_refl eq_refl
              (search_body_carries_hits [h]))
    as (docs & Hres & Hall).
  inversion Hall as [| h0 [doc score] hs0 ds0 Hlast Hnil]; subst.
  inversion Hnil; subst.
  exists doc, score. split; [exact Hres |].
  apply (Hlast [("page", JInt 1); ("lang", JStr "eng")] "page" (JInt 2) []);
    [reflexivity | intros [] | reflexivity].
Defined.

Lemma search_documents_witness :
  exists docs,
    similarity_search
      Scripted.post Scripted.dumps Scripted.str_validator Scripted.store
      "nato" 3 default_alpha None [Answered Scripted.nato_response]
    = Run (Returns docs) []
          [Posted (query_request Scripted.dumps Scripted.store
                                 "nato" 3 default_alpha None)
                  (Answered Scripted.nato_response)]
    /\ map page_content docs
       = ["NATO was founded in 1949."; "The alliance has 31 members.";
          "Its seat is in Brussels."].
Proof.
  apply (proj2 (search_documents
                  Scripted.world Scripted.post Scripted.dumps
                  Scripted.str_validator Scripted.store
                  "nato" 3 default_alpha None
                  [Answered Scripted.nato_response] []
                  Scripted.nato_response eq_refl)
               (Scripted.search_body Scripted.nato_hits) Scripted.nato_hits
               (fun s => eq_refl) eq_refl eq_refl
               (search_body_carries_hits Scripted.nato_hits)).
Defined.

Lemma from_texts_runs_add_texts_witness :
  result_of
    (snd (from_texts Calm.post Scripted.dumps (fun _ => Some "from-env")
                     ["a"; "b"] (@None unit) (Some [[]]) None None None) tt)
  <> Returns Scripted.store.
Proof.
  destruct (from_texts_runs_add_texts
              Calm.world Calm.post Scripted.dumps (fun _ => Some "from-env")
              ["a"; "b"] (@None unit) (Some [[]]) None None None tt)
    as (_ & _ & _ & _ & H & _).
  apply (H [[]] eq_refl).
  - discriminate.
  - cbn. lia.
Defined.

Lemma add_text_ignores_retry_outcome_witness :
  let w := [Answered Scripted.conflict; Answered Scripted.not_found;
            Answered Scripted.conflict] in
  result_of (add_text Scripted.post Scripted.dumps Scripted.store
                      ["id"] None 0 "text" w)
  = Returns tt.
Proof.
  intros w.
  rewrite (add_text_ignores_retry_outcome
             Scripted.world Scripted.post Scripted.dumps Scripted.store
             ["id"] None 0%nat "text" "id" [] w
             [Answered Scripted.not_found; Answered Scripted.conflict]
             [Answered Scripted.conflict] []
             _ _ _ false false
             eq_refl eq_refl eq_refl eq_refl eq_refl).
  reflexivity.
Defined.
